(** * LS-8 emulator (ls8/cpu.py): a shallow embedding and its properties

    The Python class [CPU] is embedded as a record of its fields together
    with the process's standard output.  Python integers are unbounded, so
    every cell of [ram] and [reg], [pc] and [fl] is a [Z].  Methods become
    computations in a state-and-exception monad: a raised exception keeps
    the mutations made before it, as the attributes of a Python object do.
    The reading of the clock, [datetime.now()], is an argument, and so are
    the file system and the builtin [int(text, 2)] for the loader.  The
    printer [trace], which nothing calls, is left out. *)

From Stdlib Require Import ZArith Lia.
From stdpp Require Import base list strings pretty gmap.

Local Open Scope Z_scope.

(** ** Python lists indexed by integers *)

Module PyList.

(** [l[i]] accepts [-len(l) <= i < len(l)]; a negative index counts from
    the end; anything else is an [IndexError] (here [None]). *)
Definition index (len : nat) (i : Z) : option nat :=
  if (0 <=? i) && (i <? Z.of_nat len) then Some (Z.to_nat i)
  else if (- Z.of_nat len <=? i) && (i <? 0) then Some (Z.to_nat (Z.of_nat len + i))
  else None.

Definition getitem (l : list Z) (i : Z) : option Z :=
  match index (length l) i with
  | Some k => l !! k
  | None => None
  end.

Definition setitem (l : list Z) (i : Z) (v : Z) : option (list Z) :=
  match index (length l) i with
  | Some k => Some (<[k := v]> l)
  | None => None
  end.

End PyList.

(** ** Python values that meet in the timer guard *)

Inductive exn : Type :=
| IndexError
| TypeError
| ValueError
| OSError (what : string)
| SystemExit (code : Z)
| Exception (msg : string).

Inductive result (A : Type) : Type :=
| Ret (a : A)
| Raise (e : exn).
Arguments Ret {A} a.
Arguments Raise {A} e.

(** [datetime.now()] is a [datetime]; the difference of two of them is a
    [timedelta]; both are counted in microseconds. *)
Inductive pyobj : Type :=
| PyInt (n : Z)
| PyDatetime (us : Z)
| PyTimedelta (us : Z).

(** [x - y]. *)
Definition py_sub (x y : pyobj) : result pyobj :=
  match x, y with
  | PyInt a, PyInt b => Ret (PyInt (a - b))
  | PyDatetime a, PyDatetime b => Ret (PyTimedelta (a - b))
  | PyDatetime a, PyTimedelta d => Ret (PyDatetime (a - d))
  | PyTimedelta a, PyTimedelta b => Ret (PyTimedelta (a - b))
  | _, _ => Raise TypeError
  end.

(** [x >= y]: ordering is defined within one type only; [timedelta.__ge__]
    and the reflected [int.__le__] both answer [NotImplemented] for a
    [timedelta] against an [int], and the interpreter raises [TypeError]. *)
Definition py_ge (x y : pyobj) : result bool :=
  match x, y with
  | PyInt a, PyInt b => Ret (b <=? a)
  | PyDatetime a, PyDatetime b => Ret (b <=? a)
  | PyTimedelta a, PyTimedelta b => Ret (b <=? a)
  | _, _ => Raise TypeError
  end.

(** [str(v)] of an integer, which [print(v)] and an f-string field run:
    the decimal text, or [ValueError] when the integer has more digits than
    [sys.int_max_str_digits], 4300 unless the interpreter is told otherwise
    (CPython 3.11; the sign is not counted). *)
Definition int_max_str_digits : Z := 4300.

Definition fits_str (v : Z) : bool := Z.abs v <? 10 ^ int_max_str_digits.

Definition py_str (v : Z) : result string :=
  if fits_str v then Ret (pretty v) else Raise ValueError.

(** ** Constants of cpu.py *)

Definition LDI  : Z := 130. (* 0b10000010 *)
Definition PRN  : Z := 71.  (* 0b01000111 *)
Definition HLT  : Z := 1.   (* 0b00000001 *)
Definition ADD  : Z := 160. (* 0b10100000 *)
Definition MUL  : Z := 162. (* 0b10100010 *)
Definition PUSH : Z := 69.  (* 0b01000101 *)
Definition POP  : Z := 70.  (* 0b01000110 *)
Definition JMP  : Z := 84.  (* 0b01010100 *)
Definition CALL : Z := 80.  (* 0b01010000 *)
Definition RET  : Z := 17.  (* 0b00010001 *)
Definition ST   : Z := 132. (* 0b10000100 *)
Definition CMP  : Z := 167. (* 0b10100111 *)
Definition JEQ  : Z := 85.  (* 0b01010101 *)
Definition JNE  : Z := 86.  (* 0b01010110 *)

Definition SP : Z := 7.
Definition L : Z := 4. (* 0b00000100 *)
Definition G : Z := 2. (* 0b00000010 *)
Definition E : Z := 1. (* 0b00000001 *)

(** ** The machine state *)

Record CPU : Type := mkCPU {
  ram : list Z;
  reg : list Z;
  pc : Z;
  fl : Z;
  halted : bool;
  end_of_stack : Z;
  last_saved_time : Z;   (* a datetime, in microseconds *)
  stdout : list string   (* the lines printed so far *)
}.

Definition set_ram (x : list Z) (s : CPU) : CPU :=
  mkCPU x (reg s) (pc s) (fl s) (halted s) (end_of_stack s) (last_saved_time s) (stdout s).
Definition set_reg (x : list Z) (s : CPU) : CPU :=
  mkCPU (ram s) x (pc s) (fl s) (halted s) (end_of_stack s) (last_saved_time s) (stdout s).
Definition set_pc (x : Z) (s : CPU) : CPU :=
  mkCPU (ram s) (reg s) x (fl s) (halted s) (end_of_stack s) (last_saved_time s) (stdout s).
Definition set_fl (x : Z) (s : CPU) : CPU :=
  mkCPU (ram s) (reg s) (pc s) x (halted s) (end_of_stack s) (last_saved_time s) (stdout s).
Definition set_halted (x : bool) (s : CPU) : CPU :=
  mkCPU (ram s) (reg s) (pc s) (fl s) x (end_of_stack s) (last_saved_time s) (stdout s).
Definition set_last_saved_time (x : Z) (s : CPU) : CPU :=
  mkCPU (ram s) (reg s) (pc s) (fl s) (halted s) (end_of_stack s) x (stdout s).
Definition set_stdout (x : list string) (s : CPU) : CPU :=
  mkCPU (ram s) (reg s) (pc s) (fl s) (halted s) (end_of_stack s) (last_saved_time s) x.

(** [CPU.__init__], at the clock reading [now]. *)
Definition init (now : Z) : CPU :=
  set_reg (<[Z.to_nat SP := 244]> (replicate 8 0))
    (mkCPU (replicate 256 0) (replicate 8 0) 0 0 false 0 now []).

(** ** Computations over the machine *)

Definition M (A : Type) : Type := CPU -> result A * CPU.

Definition ret {A} (a : A) : M A := fun s => (Ret a, s).
Definition raise {A} (e : exn) : M A := fun s => (Raise e, s).
Definition bind {A B} (m : M A) (k : A -> M B) : M B :=
  fun s => match m s with
           | (Ret a, s') => k a s'
           | (Raise e, s') => (Raise e, s')
           end.
Definition gets {A} (f : CPU -> A) : M A := fun s => (Ret (f s), s).
Definition modify (f : CPU -> CPU) : M unit := fun s => (Ret tt, f s).
Definition lift {A} (r : result A) : M A := fun s => (r, s).
Definition lift_index {A} (o : option A) : M A :=
  match o with Some a => ret a | None => raise IndexError end.

Notation "x <- m ;; k" := (bind m (fun x => k))
  (at level 100, m at next level, right associativity).
Notation "m ;;; k" := (bind m (fun _ => k))
  (at level 100, right associativity).

(** [print(line)] and [sys.exit(code)]. *)
Definition print (line : string) : M unit :=
  modify (fun s => set_stdout (stdout s ++ [line]) s).
Definition sys_exit {A} (code : Z) : M A := raise (SystemExit code).

(** [self.reg[i]], [self.reg[i] = v], [self.reg[i] += d] and
    [self.reg[i] -= d]. *)
Definition reg_get (i : Z) : M Z :=
  r <- gets reg ;; lift_index (PyList.getitem r i).
Definition reg_set (i v : Z) : M unit :=
  r <- gets reg ;;
  r' <- lift_index (PyList.setitem r i v) ;;
  modify (set_reg r').
Definition reg_iadd (i d : Z) : M unit :=
  v <- reg_get i ;; reg_set i (v + d).
Definition reg_isub (i d : Z) : M unit :=
  v <- reg_get i ;; reg_set i (v - d).

Definition ram_read (MAR : Z) : M Z :=
  m <- gets ram ;; lift_index (PyList.getitem m MAR).

Definition ram_write (MDR MAR : Z) : M unit :=
  m <- gets ram ;;
  m' <- lift_index (PyList.setitem m MAR MDR) ;;
  modify (set_ram m').

(** ** The ALU *)

Definition alu (op reg_a reg_b : Z) : M unit :=
  if op =? ADD then
    x <- reg_get reg_a ;; y <- reg_get reg_b ;; reg_set reg_a (x + y)
  else if op =? MUL then
    x <- reg_get reg_a ;; y <- reg_get reg_b ;; reg_set reg_a (x * y)
  else if op =? CMP then
    x <- reg_get reg_a ;; y <- reg_get reg_b ;;
    if x =? y then modify (set_fl E)
    else
      x' <- reg_get reg_a ;; y' <- reg_get reg_b ;;
      if x' <? y' then modify (set_fl L) else modify (set_fl G)
  else raise (Exception "Unsupported ALU operation").

(** ** Loops *)

(** [range(n)] *)
Definition range (n : nat) : list Z := Z.of_nat <$> seq 0 n.

(** [for i in l: body(i)] *)
Fixpoint for_each (l : list Z) (body : Z -> M unit) : M unit :=
  match l with
  | [] => ret tt
  | i :: l' => body i ;;; for_each l' body
  end.

(** [for i in l: body(i)] where the body answers [true] when it ends in
    [break]. *)
Fixpoint for_each_break (l : list Z) (body : Z -> M bool) : M unit :=
  match l with
  | [] => ret tt
  | i :: l' => stop <- body i ;; if stop then ret tt else for_each_break l' body
  end.

(** ** Operation handlers *)

Definition handle_LDI (operand_a operand_b : Z) : M unit :=
  reg_set operand_a operand_b.

Definition handle_PRN (operand_a : Z) : M unit :=
  v <- reg_get operand_a ;;
  text <- lift (py_str v) ;;
  print text.

Definition handle_HLT : M unit := modify (set_halted true).

Definition handle_ALU (operand_a operand_b : Z) : M unit :=
  p <- gets pc ;;
  IR <- ram_read p ;;
  alu IR operand_a operand_b.

Definition handle_PUSH (operand_a : Z) : M unit :=
  sp <- reg_get SP ;;
  eos <- gets end_of_stack ;;
  (if sp - 1 <? eos then
     print "STACK OVERFLOW! Exceeded maximum allocated space for the stack..." ;;;
     sys_exit 1
   else ret tt) ;;;
  reg_isub SP 1 ;;;
  value_in_register <- reg_get operand_a ;;
  sp' <- reg_get SP ;;
  ram_write value_in_register sp'.

Definition handle_POP (operand_a : Z) : M unit :=
  sp <- reg_get SP ;;
  if sp <? 244 then
    sp' <- reg_get SP ;;
    value_in_stack_pointer_register <- ram_read sp' ;;
    reg_set operand_a value_in_stack_pointer_register ;;;
    reg_iadd SP 1
  else
    print "STACK UNDERFLOW! Stack is empty..." ;;;
    sys_exit 1.

Definition handle_JUMP (operand_a : Z) : M unit :=
  address_to_jump_to <- reg_get operand_a ;;
  modify (set_pc address_to_jump_to).

Definition handle_CALL (operand_a : Z) : M unit :=
  reg_isub SP 1 ;;;
  p <- gets pc ;;
  sp <- reg_get SP ;;
  ram_write (p + 2) sp ;;;
  target <- reg_get operand_a ;;
  modify (set_pc target).

Definition handle_RET : M unit :=
  sp <- reg_get SP ;;
  v <- ram_read sp ;;
  modify (set_pc v) ;;;
  reg_iadd SP 1.

Definition handle_ST (operand_a operand_b : Z) : M unit :=
  v <- reg_get operand_b ;;
  a <- reg_get operand_a ;;
  ram_write v a.

Definition handle_JEQ (operand_a : Z) : M unit :=
  f <- gets fl ;;
  if f =? E then
    target <- reg_get operand_a ;; modify (set_pc target)
  else
    modify (fun s => set_pc (pc s + 2) s).

Definition handle_JNE (operand_a : Z) : M unit :=
  f <- gets fl ;;
  if negb (f =? E) then
    target <- reg_get operand_a ;; modify (set_pc target)
  else
    modify (fun s => set_pc (pc s + 2) s).

(** ** Decoding and dispatch *)

(** A bound method of the class, by the number of operands it takes. *)
Inductive handler : Type :=
| Handler0 (f : M unit)
| Handler1 (f : Z -> M unit)
| Handler2 (f : Z -> Z -> M unit).

(** Calling a method with the wrong number of arguments is a [TypeError]. *)
Definition call (h : handler) (args : list Z) : M unit :=
  match h, args with
  | Handler0 f, [] => f
  | Handler1 f, [a] => f a
  | Handler2 f, [a; b] => f a b
  | _, _ => raise TypeError
  end.

Definition branchtable : gmap Z handler :=
  list_to_map
    [ (LDI, Handler2 handle_LDI);
      (PRN, Handler1 handle_PRN);
      (HLT, Handler0 handle_HLT);
      (ADD, Handler2 handle_ALU);
      (MUL, Handler2 handle_ALU);
      (PUSH, Handler1 handle_PUSH);
      (POP, Handler1 handle_POP);
      (JMP, Handler1 handle_JUMP);
      (CALL, Handler1 handle_CALL);
      (RET, Handler0 handle_RET);
      (ST, Handler2 handle_ST);
      (CMP, Handler2 handle_ALU);
      (JEQ, Handler1 handle_JEQ);
      (JNE, Handler1 handle_JNE) ].

(** [(IR >> 6) & 0b11] and [(IR >> 4) & 0b0001] *)
Definition number_of_operands (IR : Z) : Z := Z.land (Z.shiftr IR 6) 3.
Definition sets_pc (IR : Z) : Z := Z.land (Z.shiftr IR 4) 1.

(** *** The three blocks of [execute_instruction]

    The body of [execute_instruction] runs, in this order, the timer guard
    (lines 138-142), the interrupt scan (lines 144-163) and the dispatch
    with the program-counter advance (lines 167-180). *)

(** Lines 138-142.  [now] is what [datetime.now()] answers. *)
Definition timer_check (now : Z) : M unit :=
  let curr_time := PyDatetime now in
  last <- gets last_saved_time ;;
  elapsed <- lift (py_sub curr_time (PyDatetime last)) ;;
  fired <- lift (py_ge elapsed (PyInt 1)) ;;
  if fired : bool then
    modify (set_last_saved_time now) ;;;
    reg_set 6 128
  else ret tt.

(** Lines 152-160: the state save of the interrupt scan. *)
Definition save_state : M unit :=
  reg_isub SP 1 ;;;
  (p <- gets pc ;; sp <- reg_get SP ;; ram_write p sp) ;;;
  reg_isub SP 1 ;;;
  (f <- gets fl ;; sp <- reg_get SP ;; ram_write f sp) ;;;
  for_each (range 7) (fun i =>
    reg_isub SP 1 ;;;
    v <- reg_get i ;; sp <- reg_get SP ;; ram_write v sp).

(** Lines 144-163. *)
Definition interrupt_check : M unit :=
  r5 <- reg_get 5 ;;
  r6 <- reg_get 6 ;;
  let masked_interrupts := Z.land r5 r6 in
  for_each_break (range 8) (fun i =>
    let interrupt_happened := Z.land (Z.shiftr masked_interrupts i) 1 =? 1 in
    if interrupt_happened then
      reg_set 5 0 ;;;
      reg_set 6 0 ;;;
      save_state ;;;
      ret true
    else ret false).

(** Lines 167-180. *)
Definition dispatch (IR operand_a operand_b : Z) : M unit :=
  (match branchtable !! IR with
   | None =>
       text <- lift (py_str IR) ;;
       print ("Unknown instruction " +:+ text) ;;;
       modify (set_halted true)
   | Some h =>
       if number_of_operands IR =? 2 then call h [operand_a; operand_b]
       else if number_of_operands IR =? 1 then call h [operand_a]
       else call h []
   end) ;;;
  if sets_pc IR =? 0 then
    modify (fun s => set_pc (pc s + (number_of_operands IR + 1)) s)
  else ret tt.

Definition execute_instruction (now : Z) (IR operand_a operand_b : Z) : M unit :=
  timer_check now ;;;
  interrupt_check ;;;
  dispatch IR operand_a operand_b.

(** [CPU.run].  [clock k] is the reading of the k-th coming call of
    [datetime.now()]; the answer is [true] when the loop has ended and
    [false] when the fuel has. *)
Fixpoint run (fuel : nat) (clock : nat -> Z) : M bool :=
  match fuel with
  | O => ret false
  | S fuel' =>
      h <- gets halted ;;
      if h : bool then ret true
      else
        p <- gets pc ;;
        IR <- ram_read p ;;
        p1 <- gets pc ;;
        operand_a <- ram_read (p1 + 1) ;;
        p2 <- gets pc ;;
        operand_b <- ram_read (p2 + 2) ;;
        execute_instruction (clock O) IR operand_a operand_b ;;;
        run fuel' (fun k => clock (S k))
  end.

(** ** The invariant of the class

    [__init__] builds a memory of 256 cells and 8 registers and no method
    changes their number; [end_of_stack] is 0 or the count of loaded
    bytes. *)
Definition well_formed (s : CPU) : Prop :=
  length (ram s) = 256%nat /\ length (reg s) = 8%nat /\ 0 <= end_of_stack s.

(** The stack pointer holds [sp]. *)
Definition sp_is (s : CPU) (sp : Z) : Prop := reg s !! Z.to_nat SP = Some sp.

(** The memory after the values [vs] have been pushed in order from the
    stack pointer [sp]: each one is stored at the stack pointer less one. *)
Fixpoint stack_writes (vs : list Z) (sp : Z) (m : list Z) : list Z :=
  match vs with
  | [] => m
  | v :: vs' => stack_writes vs' (sp - 1) (<[Z.to_nat (sp - 1) := v]> m)
  end.

(** ** The loader (lines 48-67) *)

Definition set_end_of_stack (x : Z) (s : CPU) : CPU :=
  mkCPU (ram s) (reg s) (pc s) (fl s) (halted s) x (last_saved_time s) (stdout s).

(** [try: body] followed by a bare [except: handler], which catches every
    exception; the mutations made before the exception stay. *)
Definition try_except {A} (body handler : M A) : M A :=
  fun s => match body s with
           | (Raise _, s') => handler s'
           | r => r
           end.

(** [line.split("#")[0]]: the text before the first [#] (character 35). *)
Fixpoint before_hash (line : string) : string :=
  match line with
  | EmptyString => EmptyString
  | String c rest =>
      if Ascii.eqb c (Ascii.ascii_of_nat 35) then EmptyString else String c (before_hash rest)
  end.

(** What [open(filename)] and the reading of the file come to:
    [FileNotFoundError] at the opening; another error at the opening
    ([IsADirectoryError], [PermissionError], ...); or a file that opens, the
    lines its iteration yields, and how the iteration stops: at the end of
    the file ([None]) or on an error of the read ([UnicodeDecodeError], a
    [ValueError], or an [OSError]). *)
Inductive opened : Type :=
| NotFound
| OpenFails (e : exn)
| Opened (program : list string) (stop : option exn).

Section loader.

(** The builtin [int(text, 2)]: [None] when it raises [ValueError]. *)
Variable int2 : string -> option Z.

(** The [for line in program] loop; the answer is the final [MAR].  A line
    whose text does not parse, or whose write raises, is passed over with
    [MAR] as it was ([continue]). *)
Fixpoint load_lines (program : list string) (MAR : Z) : M Z :=
  match program with
  | [] => ret MAR
  | line :: rest =>
      let comment_split_0 := before_hash line in
      MAR' <- try_except
                (match int2 comment_split_0 with
                 | None => raise ValueError
                 | Some MDR => ram_write MDR MAR ;;; ret (MAR + 1)
                 end)
                (ret MAR) ;;
      load_lines rest MAR'
  end.

(** [CPU.load].  [file] is what comes of [open(filename)].  Only
    [FileNotFoundError] is caught; an error of the read leaves the loop
    after the lines read so far, before [end_of_stack] is assigned. *)
Definition load (file : opened) : M unit :=
  match file with
  | NotFound => print "File Not Found..." ;;; sys_exit 1
  | OpenFails e => raise e
  | Opened program stop =>
      MAR <- load_lines program 0 ;;
      match stop with
      | Some e => raise e
      | None => modify (set_end_of_stack MAR)
      end
  end.

(** ** The entry point (ls8.py)

    [argv] is [sys.argv], [open] the file system, [clock] the readings of
    [datetime.now()] ([CPU()] takes the first), [fuel] bounds the cycles of
    [run]. *)
Definition main (argv : list string) (open : string -> opened)
    (clock : nat -> Z) (fuel : nat) : result bool * CPU :=
  ((if (length argv <? 2)%nat then
      print "Missing program filename..." ;;; sys_exit 1
    else ret tt) ;;;
   file_to_execute <- lift_index (argv !! 1%nat) ;;
   load (open file_to_execute) ;;;
   run fuel (fun k => clock (S k)))
    (init (clock O)).

End loader.

(** The values a program file holds, in order: the lines that parse. *)
Definition parsed (int2 : string -> option Z) (program : list string) : list Z :=
  omap (fun line => int2 (before_hash line)) program.

(** ** What every instruction keeps *)

(** The sizes of memory and of the register file, and the two fields no
    instruction assigns. *)
Definition shape (s : CPU) : nat * nat * Z * Z :=
  (length (ram s), length (reg s), end_of_stack s, last_saved_time s).

(** [m] leaves the observation [f] of the machine as it was, whether it
    returns or raises. *)
Definition keeps {A B} (f : CPU -> B) (m : M A) : Prop :=
  forall s, f (snd (m s)) = f s.

(** The number of operands a handler takes. *)
Definition arity (h : handler) : Z :=
  match h with Handler0 _ => 0 | Handler1 _ => 1 | Handler2 _ => 2 end.

(** The call the dispatch makes once the operand count is known: the
    handler on the operands it takes. *)
Definition apply_handler (h : handler) (operand_a operand_b : Z) : M unit :=
  match h with
  | Handler0 f => f
  | Handler1 f => f operand_a
  | Handler2 f => f operand_a operand_b
  end.

(** * Properties *)

(** ** Indexing *)

Module PyListFacts.
Import PyList.

Lemma index_nonneg (n : nat) (i : Z) :
  0 <= i < Z.of_nat n -> index n i = Some (Z.to_nat i).
Proof.
  intros Hi. unfold index.
  destruct (Z.leb_spec 0 i); [|lia].
  destruct (Z.ltb_spec i (Z.of_nat n)); [reflexivity|lia].
Qed.

Lemma index_negative (n : nat) (i : Z) :
  - Z.of_nat n <= i < 0 -> index n i = Some (Z.to_nat (Z.of_nat n + i)).
Proof.
  intros Hi. unfold index.
  destruct (Z.leb_spec 0 i); [lia|]. cbn [andb].
  destruct (Z.leb_spec (- Z.of_nat n) i); [|lia].
  destruct (Z.ltb_spec i 0); [reflexivity|lia].
Qed.

Lemma index_outside (n : nat) (i : Z) :
  i < - Z.of_nat n \/ Z.of_nat n <= i -> index n i = None.
Proof.
  intros Hi. unfold index.
  destruct (Z.leb_spec 0 i), (Z.ltb_spec i (Z.of_nat n)),
    (Z.leb_spec (- Z.of_nat n) i), (Z.ltb_spec i 0); cbn; try reflexivity; lia.
Qed.

Lemma index_lt (n : nat) (i : Z) (k : nat) : index n i = Some k -> (k < n)%nat.
Proof.
  unfold index.
  destruct (Z.leb_spec 0 i), (Z.ltb_spec i (Z.of_nat n)),
    (Z.leb_spec (- Z.of_nat n) i), (Z.ltb_spec i 0); cbn;
    intros [= <-]; lia.
Qed.

Lemma getitem_lookup (l : list Z) (i : Z) :
  0 <= i < Z.of_nat (length l) -> getitem l i = l !! Z.to_nat i.
Proof. intros Hi. unfold getitem. now rewrite index_nonneg. Qed.

Lemma getitem_Some (l : list Z) (i v : Z) :
  0 <= i -> l !! Z.to_nat i = Some v -> getitem l i = Some v.
Proof.
  intros Hi Hv. rewrite getitem_lookup; [exact Hv|].
  apply lookup_lt_Some in Hv. lia.
Qed.

Lemma setitem_insert (l : list Z) (i v : Z) :
  0 <= i < Z.of_nat (length l) -> setitem l i v = Some (<[Z.to_nat i := v]> l).
Proof. intros Hi. unfold setitem. now rewrite index_nonneg. Qed.

Lemma setitem_length (l l' : list Z) (i v : Z) :
  setitem l i v = Some l' -> length l' = length l.
Proof.
  unfold setitem. destruct (index (length l) i); [|discriminate].
  intros [= <-]. apply length_insert.
Qed.

(** Reading back the cell just written, whatever the sign of the index. *)
Lemma getitem_setitem (l l' : list Z) (i v : Z) :
  setitem l i v = Some l' -> getitem l' i = Some v.
Proof.
  intros H. unfold getitem. rewrite (setitem_length _ _ _ _ H).
  unfold setitem in H. destruct (index (length l) i) as [k|] eqn:Hk; [|discriminate].
  injection H as <-. apply list_lookup_insert_eq. eapply index_lt, Hk.
Qed.

Lemma setitem_is_Some (l : list Z) (i v : Z) :
  - Z.of_nat (length l) <= i < Z.of_nat (length l) -> is_Some (setitem l i v).
Proof.
  intros Hi. unfold setitem.
  destruct (Z.lt_ge_cases i 0).
  - rewrite index_negative by lia. eauto.
  - rewrite index_nonneg by lia. eauto.
Qed.

End PyListFacts.

(** ** Running computations *)

Section monad_facts.
Context {A B : Type}.

Lemma bind_Ret (m : M A) (k : A -> M B) (s s' : CPU) (a : A) :
  m s = (Ret a, s') -> bind m k s = k a s'.
Proof. unfold bind. now intros ->. Qed.

Lemma bind_Raise (m : M A) (k : A -> M B) (s s' : CPU) (e : exn) :
  m s = (Raise e, s') -> bind m k s = (Raise e, s').
Proof. unfold bind. now intros ->. Qed.

Lemma bind_gets (f : CPU -> A) (k : A -> M B) (s : CPU) :
  bind (gets f) k s = k (f s) s.
Proof. reflexivity. Qed.

Lemma bind_ret (a : A) (k : A -> M B) (s : CPU) : bind (ret a) k s = k a s.
Proof. reflexivity. Qed.

End monad_facts.

Lemma bind_modify {B} (f : CPU -> CPU) (k : unit -> M B) (s : CPU) :
  bind (modify f) k s = k tt (f s).
Proof. reflexivity. Qed.

Ltac fields :=
  cbn [ram reg pc fl halted end_of_stack last_saved_time stdout
       set_ram set_reg set_pc set_fl set_halted set_last_saved_time set_stdout] in *.

Section accessors.
Import PyList PyListFacts.
Variable s : CPU.

Lemma reg_get_Some (i v : Z) :
  getitem (reg s) i = Some v -> reg_get i s = (Ret v, s).
Proof. unfold reg_get. rewrite bind_gets. now intros ->. Qed.

Lemma reg_get_ok (i v : Z) :
  0 <= i -> reg s !! Z.to_nat i = Some v -> reg_get i s = (Ret v, s).
Proof. intros Hi Hv. apply reg_get_Some, getitem_Some; assumption. Qed.

Lemma reg_set_Some (i v : Z) (r' : list Z) :
  setitem (reg s) i v = Some r' -> reg_set i v s = (Ret tt, set_reg r' s).
Proof. unfold reg_set. rewrite bind_gets. now intros ->. Qed.

Lemma reg_set_ok (i v : Z) :
  0 <= i < Z.of_nat (length (reg s)) ->
  reg_set i v s = (Ret tt, set_reg (<[Z.to_nat i := v]> (reg s)) s).
Proof. intros Hi. apply reg_set_Some, setitem_insert, Hi. Qed.

Lemma reg_iadd_ok (i v d : Z) :
  0 <= i -> reg s !! Z.to_nat i = Some v ->
  reg_iadd i d s = (Ret tt, set_reg (<[Z.to_nat i := v + d]> (reg s)) s).
Proof.
  intros Hi Hv. unfold reg_iadd.
  rewrite (bind_Ret _ _ _ _ _ (reg_get_ok _ _ Hi Hv)).
  apply reg_set_ok. apply lookup_lt_Some in Hv. lia.
Qed.

Lemma reg_isub_ok (i v d : Z) :
  0 <= i -> reg s !! Z.to_nat i = Some v ->
  reg_isub i d s = (Ret tt, set_reg (<[Z.to_nat i := v - d]> (reg s)) s).
Proof.
  intros Hi Hv. unfold reg_isub.
  rewrite (bind_Ret _ _ _ _ _ (reg_get_ok _ _ Hi Hv)).
  apply reg_set_ok. apply lookup_lt_Some in Hv. lia.
Qed.

Lemma ram_read_Some (a v : Z) :
  getitem (ram s) a = Some v -> ram_read a s = (Ret v, s).
Proof. unfold ram_read. rewrite bind_gets. now intros ->. Qed.

Lemma ram_read_None (a : Z) :
  getitem (ram s) a = None -> ram_read a s = (Raise IndexError, s).
Proof. unfold ram_read. rewrite bind_gets. now intros ->. Qed.

Lemma ram_write_Some (v a : Z) (m' : list Z) :
  setitem (ram s) a v = Some m' -> ram_write v a s = (Ret tt, set_ram m' s).
Proof. unfold ram_write. rewrite bind_gets. now intros ->. Qed.

Lemma ram_write_ok (v a : Z) :
  0 <= a < Z.of_nat (length (ram s)) ->
  ram_write v a s = (Ret tt, set_ram (<[Z.to_nat a := v]> (ram s)) s).
Proof. intros Ha. apply ram_write_Some, setitem_insert, Ha. Qed.


End accessors.

(** ** The ALU (lines 70-85) *)

Section alu_facts.
Variables (s : CPU) (a b x y : Z).
Hypothesis Ha : 0 <= a.
Hypothesis Hb : 0 <= b.
Hypothesis Hx : reg s !! Z.to_nat a = Some x.
Hypothesis Hy : reg s !! Z.to_nat b = Some y.

Let a_in_range : 0 <= a < Z.of_nat (length (reg s)).
Proof. apply lookup_lt_Some in Hx. lia. Qed.

Lemma alu_ADD_eq :
  alu ADD a b s = (Ret tt, set_reg (<[Z.to_nat a := x + y]> (reg s)) s).
Proof using Ha Hb Hx Hy a_in_range.
  unfold alu. cbn [Z.eqb ADD Pos.eqb].
  rewrite (bind_Ret _ _ _ _ _ (reg_get_ok s a x Ha Hx)).
  rewrite (bind_Ret _ _ _ _ _ (reg_get_ok s b y Hb Hy)).
  now apply reg_set_ok.
Qed.

Lemma alu_MUL_eq :
  alu MUL a b s = (Ret tt, set_reg (<[Z.to_nat a := x * y]> (reg s)) s).
Proof using Ha Hb Hx Hy a_in_range.
  unfold alu. cbn [Z.eqb ADD MUL Pos.eqb].
  rewrite (bind_Ret _ _ _ _ _ (reg_get_ok s a x Ha Hx)).
  rewrite (bind_Ret _ _ _ _ _ (reg_get_ok s b y Hb Hy)).
  now apply reg_set_ok.
Qed.

Lemma alu_CMP_eq :
  alu CMP a b s
  = (Ret tt, set_fl (if x =? y then E else if x <? y then L else G) s).
Proof using Ha Hb Hx Hy.
  unfold alu. cbn [Z.eqb ADD MUL CMP Pos.eqb].
  rewrite (bind_Ret _ _ _ _ _ (reg_get_ok s a x Ha Hx)).
  rewrite (bind_Ret _ _ _ _ _ (reg_get_ok s b y Hb Hy)).
  destruct (x =? y); [reflexivity|].
  rewrite (bind_Ret _ _ _ _ _ (reg_get_ok s a x Ha Hx)).
  rewrite (bind_Ret _ _ _ _ _ (reg_get_ok s b y Hb Hy)).
  now destruct (x <? y).
Qed.

End alu_facts.

(** C1, as the code has it: for register indices [a], [b] in 0..7 holding
    [x] and [y], ADD leaves [reg[a] = x + y] and MUL leaves
    [reg[a] = x * y], as unbounded integers, every other register and the
    rest of the machine untouched.  No reduction modulo 256 takes place; the
    result agrees with the value modulo 256 exactly when it is below 256. *)
Theorem alu_ADD_MUL_unbounded (s : CPU) (a b x y : Z) :
  0 <= a < 8 -> 0 <= b < 8 ->
  reg s !! Z.to_nat a = Some x -> reg s !! Z.to_nat b = Some y ->
  0 <= x < 256 -> 0 <= y < 256 ->
  alu ADD a b s = (Ret tt, set_reg (<[Z.to_nat a := x + y]> (reg s)) s)
  /\ alu MUL a b s = (Ret tt, set_reg (<[Z.to_nat a := x * y]> (reg s)) s)
  /\ (x + y = (x + y) mod 256 <-> x + y < 256)
  /\ (x * y = (x * y) mod 256 <-> x * y < 256).
Proof.
  intros Ha Hb Hx Hy Hx8 Hy8. repeat split.
  - apply alu_ADD_eq; tauto.
  - apply alu_MUL_eq; tauto.
  - intros H. rewrite H. apply Z.mod_pos_bound. lia.
  - intros H. symmetry. apply Z.mod_small. lia.
  - intros H. rewrite H. apply Z.mod_pos_bound. lia.
  - intros H. symmetry. apply Z.mod_small. nia.
Qed.

Lemma alu_ADD_MUL_unbounded_witness :
  let s := set_reg [200; 100; 16; 0; 0; 0; 0; 244] (init 0) in
  alu ADD 0 1 s = (Ret tt, set_reg (<[0%nat := 200 + 100]> (reg s)) s)
  /\ alu MUL 0 1 s = (Ret tt, set_reg (<[0%nat := 200 * 100]> (reg s)) s)
  /\ (200 + 100 = (200 + 100) mod 256 <-> 200 + 100 < 256)
  /\ (200 * 100 = (200 * 100) mod 256 <-> 200 * 100 < 256).
Proof.
  intros s.
  apply (alu_ADD_MUL_unbounded s 0 1 200 100); first [reflexivity | lia].
Defined.

(** C1 as stated fails: with [reg[0] = 200] and [reg[1] = 100], ADD leaves
    300 in [reg[0]], not 44; with [reg[2] = 16], MUL of register 2 by itself
    leaves 256, not 0. *)
Lemma alu_ADD_MUL_mod_256_counterexample :
  let s := set_reg [200; 100; 16; 0; 0; 0; 0; 244] (init 0) in
  (exists s', alu ADD 0 1 s = (Ret tt, s')
              /\ reg s' !! 0%nat = Some 300
              /\ reg s' !! 0%nat <> Some ((200 + 100) mod 256))
  /\ (exists s', alu MUL 2 2 s = (Ret tt, s')
                 /\ reg s' !! 2%nat = Some 256
                 /\ reg s' !! 2%nat <> Some ((16 * 16) mod 256)).
Proof.
  intros s; split; eexists;
    (split; [vm_compute; reflexivity | split; [reflexivity | discriminate]]).
Qed.

(** C8: for registers [x], [y] holding [a] and [b], CMP stores in the flags
    exactly one of [L], [G], [E]: [E] when [a = b], [L] when [a < b] and
    [G] when [a > b]; nothing else changes. *)
Theorem alu_CMP_flags (s : CPU) (x y a b : Z) :
  0 <= x < 8 -> 0 <= y < 8 ->
  reg s !! Z.to_nat x = Some a -> reg s !! Z.to_nat y = Some b ->
  0 <= a < 256 -> 0 <= b < 256 ->
  exists f, alu CMP x y s = (Ret tt, set_fl f s)
    /\ (f = E <-> a = b) /\ (f = L <-> a < b) /\ (f = G <-> a > b)
    /\ (f = L \/ f = G \/ f = E).
Proof.
  intros Hx Hy Ha Hb _ _.
  exists (if a =? b then E else if a <? b then L else G).
  split; [apply alu_CMP_eq; tauto|].
  unfold E, L, G.
  destruct (Z.eqb_spec a b), (Z.ltb_spec a b); repeat split; intros; lia || tauto.
Qed.

Lemma alu_CMP_flags_witness :
  exists f, alu CMP 0 1 (set_reg [3; 5; 0; 0; 0; 0; 0; 244] (init 0))
            = (Ret tt, set_fl f (set_reg [3; 5; 0; 0; 0; 0; 0; 244] (init 0)))
    /\ (f = E <-> 3 = 5) /\ (f = L <-> 3 < 5) /\ (f = G <-> 3 > 5)
    /\ (f = L \/ f = G \/ f = E).
Proof.
  apply (alu_CMP_flags _ 0 1 3 5); first [reflexivity | lia].
Defined.


(** ** The stack: PUSH and POP (lines 197-212) *)

Lemma sp_get (s : CPU) (sp : Z) : sp_is s sp -> reg_get SP s = (Ret sp, s).
Proof. intros H. apply reg_get_ok; [unfold SP; lia | exact H]. Qed.

Lemma sp_iadd (s : CPU) (sp d : Z) :
  sp_is s sp ->
  reg_iadd SP d s = (Ret tt, set_reg (<[7%nat := sp + d]> (reg s)) s).
Proof. intros H. apply (reg_iadd_ok s SP sp d); [unfold SP; lia | exact H]. Qed.

Lemma sp_isub (s : CPU) (sp d : Z) :
  sp_is s sp ->
  reg_isub SP d s = (Ret tt, set_reg (<[7%nat := sp - d]> (reg s)) s).
Proof. intros H. apply (reg_isub_ok s SP sp d); [unfold SP; lia | exact H]. Qed.

Lemma sp_is_insert (s : CPU) (sp v : Z) :
  sp_is s sp -> sp_is (set_reg (<[7%nat := v]> (reg s)) s) v.
Proof.
  intros H. unfold sp_is. fields. apply list_lookup_insert_eq.
  eapply lookup_lt_Some, H.
Qed.

Lemma handle_PUSH_overflow (s : CPU) (r sp : Z) :
  sp_is s sp -> sp - 1 < end_of_stack s ->
  handle_PUSH r s
  = (Raise (SystemExit 1),
     set_stdout
       (stdout s ++ ["STACK OVERFLOW! Exceeded maximum allocated space for the stack..."])
       s).
Proof.
  intros Hsp Hlt. unfold handle_PUSH.
  rewrite (bind_Ret _ _ _ _ _ (sp_get s sp Hsp)), bind_gets.
  destruct (Z.ltb_spec (sp - 1) (end_of_stack s)); [reflexivity | lia].
Qed.

Lemma handle_PUSH_ok (s : CPU) (r sp v : Z) :
  well_formed s -> 0 <= r < 8 -> sp_is s sp ->
  end_of_stack s <= sp - 1 -> sp <= 256 ->
  <[7%nat := sp - 1]> (reg s) !! Z.to_nat r = Some v ->
  handle_PUSH r s
  = (Ret tt, set_ram (<[Z.to_nat (sp - 1) := v]> (ram s))
               (set_reg (<[7%nat := sp - 1]> (reg s)) s)).
Proof.
  intros (Hram & Hreg & Heos) Hr Hsp Hge Hle Hv. unfold handle_PUSH.
  rewrite (bind_Ret _ _ _ _ _ (sp_get s sp Hsp)), bind_gets.
  destruct (Z.ltb_spec (sp - 1) (end_of_stack s)); [lia|].
  rewrite bind_ret.
  rewrite (bind_Ret _ _ _ _ _ (sp_isub s sp 1 Hsp)).
  set (s1 := set_reg _ s).
  assert (Hsp1 : sp_is s1 (sp - 1)) by (subst s1; eapply sp_is_insert; exact Hsp).
  rewrite (bind_Ret _ _ _ _ _ (reg_get_ok s1 r v (proj1 Hr) Hv)).
  rewrite (bind_Ret _ _ _ _ _ (sp_get s1 _ Hsp1)).
  rewrite (ram_write_ok s1 v (sp - 1)) by (subst s1; fields; lia).
  reflexivity.
Qed.

(** C3: when [SP - 1] is below [end_of_stack], PUSH fails with the
    stack-overflow error: it prints the line "STACK OVERFLOW! ..." and
    exits with status 1, memory and every register (SP among them) as they
    were, the printed line being the only change to the machine; otherwise
    it first stores [SP - 1] in SP and then writes the value the register
    holds at that moment to memory at the new SP. *)
Theorem handle_PUSH_spec (s : CPU) (r sp : Z) :
  sp_is s sp ->
  (sp - 1 < end_of_stack s ->
   exists s', handle_PUSH r s = (Raise (SystemExit 1), s')
     /\ stdout s'
        = stdout s ++ ["STACK OVERFLOW! Exceeded maximum allocated space for the stack..."]
     /\ s' = set_stdout (stdout s') s
     /\ ram s' = ram s /\ reg s' = reg s /\ sp_is s' sp)
  /\ (well_formed s -> 0 <= r < 8 -> end_of_stack s <= sp - 1 -> sp <= 256 ->
      exists v,
        <[7%nat := sp - 1]> (reg s) !! Z.to_nat r = Some v
        /\ handle_PUSH r s
           = (Ret tt, set_ram (<[Z.to_nat (sp - 1) := v]> (ram s))
                        (set_reg (<[7%nat := sp - 1]> (reg s)) s))).
Proof.
  intros Hsp. split.
  - intros Hlt. eexists. split; [apply (handle_PUSH_overflow s r sp Hsp Hlt)|].
    fields. auto.
  - intros Hwf Hr Hge Hle.
    destruct (lookup_lt_is_Some_2 (<[7%nat := sp - 1]> (reg s)) (Z.to_nat r)) as [v Hv].
    { rewrite length_insert. destruct Hwf as (_ & -> & _). lia. }
    exists v. split; [exact Hv|]. now apply handle_PUSH_ok.
Qed.

(** A full stack (the program fills memory up to 0xF4) and the fresh
    machine. *)
Lemma handle_PUSH_spec_witness :
  (exists s', handle_PUSH 0 (mkCPU (replicate 256 0) [9; 0; 0; 0; 0; 0; 0; 244] 0 0 false 244 0 [])
              = (Raise (SystemExit 1), s')
     /\ stdout s' = ["STACK OVERFLOW! Exceeded maximum allocated space for the stack..."]
     /\ ram s' = replicate 256 0 /\ reg s' = [9; 0; 0; 0; 0; 0; 0; 244])
  /\ (exists v, handle_PUSH 0 (set_reg [9; 0; 0; 0; 0; 0; 0; 244] (init 0))
                = (Ret tt, set_ram (<[243%nat := v]> (replicate 256 0))
                             (set_reg [9; 0; 0; 0; 0; 0; 0; 243] (init 0)))
                /\ v = 9).
Proof.
  split.
  - destruct (proj1 (handle_PUSH_spec
                       (mkCPU (replicate 256 0) [9; 0; 0; 0; 0; 0; 0; 244] 0 0 false 244 0 [])
                       0 244 eq_refl)) as (s' & H & Ho & _ & Hm & Hr & _); [simpl; lia|].
    exists s'. auto.
  - destruct (proj2 (handle_PUSH_spec (set_reg [9; 0; 0; 0; 0; 0; 0; 244] (init 0))
                       0 244 eq_refl)) as (v & Hv & H);
      [repeat split; simpl; lia | lia | simpl; lia | lia |].
    exists v. split; [exact H | now injection Hv].
Defined.

Lemma handle_POP_underflow (s : CPU) (r sp : Z) :
  sp_is s sp -> 244 <= sp ->
  handle_POP r s
  = (Raise (SystemExit 1),
     set_stdout (stdout s ++ ["STACK UNDERFLOW! Stack is empty..."]) s).
Proof.
  intros Hsp Hge. unfold handle_POP.
  rewrite (bind_Ret _ _ _ _ _ (sp_get s sp Hsp)).
  destruct (Z.ltb_spec sp 244); [lia | reflexivity].
Qed.

Lemma handle_POP_ok (s : CPU) (r sp v x : Z) :
  0 <= r < 8 -> length (reg s) = 8%nat -> sp_is s sp -> sp < 244 ->
  PyList.getitem (ram s) sp = Some v ->
  <[Z.to_nat r := v]> (reg s) !! 7%nat = Some x ->
  handle_POP r s
  = (Ret tt, set_reg (<[7%nat := x + 1]> (<[Z.to_nat r := v]> (reg s))) s).
Proof.
  intros Hr Hreg Hsp Hlt Hv Hx. unfold handle_POP.
  rewrite (bind_Ret _ _ _ _ _ (sp_get s sp Hsp)).
  destruct (Z.ltb_spec sp 244); [|lia].
  rewrite (bind_Ret _ _ _ _ _ (sp_get s sp Hsp)).
  rewrite (bind_Ret _ _ _ _ _ (ram_read_Some s sp v Hv)).
  rewrite (bind_Ret _ _ _ _ _ (reg_set_ok s r v ltac:(lia))).
  set (s1 := set_reg _ s).
  exact (sp_iadd s1 x 1 Hx).
Qed.

(** C4: when SP is 0xF4 or more, POP fails with the stack-underflow error:
    it prints the line "STACK UNDERFLOW! Stack is empty..." and exits with
    status 1, every register (the destination and SP among them) as it was,
    the printed line being the only change to the machine; otherwise it stores the memory cell at SP in the register and then
    adds 1 to SP (for a destination other than SP itself, SP ends at
    [sp + 1] and the register holds the cell). *)
Theorem handle_POP_spec (s : CPU) (r sp : Z) :
  sp_is s sp ->
  (244 <= sp ->
   exists s', handle_POP r s = (Raise (SystemExit 1), s')
     /\ stdout s' = stdout s ++ ["STACK UNDERFLOW! Stack is empty..."]
     /\ s' = set_stdout (stdout s') s
     /\ reg s' = reg s /\ ram s' = ram s /\ sp_is s' sp)
  /\ (well_formed s -> 0 <= r < 8 -> 0 <= sp < 244 ->
      exists v x,
        ram s !! Z.to_nat sp = Some v
        /\ <[Z.to_nat r := v]> (reg s) !! 7%nat = Some x
        /\ handle_POP r s
           = (Ret tt, set_reg (<[7%nat := x + 1]> (<[Z.to_nat r := v]> (reg s))) s)
        /\ (r <> 7 -> x = sp)).
Proof.
  intros Hsp. split.
  - intros Hge. eexists. split; [apply (handle_POP_underflow s r sp Hsp Hge)|].
    fields. auto.
  - intros (Hram & Hreg & _) Hr Hlt.
    destruct (lookup_lt_is_Some_2 (ram s) (Z.to_nat sp)) as [v Hv]; [lia|].
    destruct (lookup_lt_is_Some_2 (<[Z.to_nat r := v]> (reg s)) 7%nat) as [x Hx].
    { rewrite length_insert. lia. }
    exists v, x. repeat split; try assumption.
    + apply (handle_POP_ok s r sp v x); try assumption; try lia.
      apply PyListFacts.getitem_Some; [lia | exact Hv].
    + intros Hne. rewrite list_lookup_insert_ne in Hx by lia.
      unfold sp_is in Hsp. change (Z.to_nat SP) with 7%nat in Hsp. congruence.
Qed.

Lemma handle_POP_spec_witness :
  (exists s', handle_POP 0 (init 0) = (Raise (SystemExit 1), s')
     /\ stdout s' = ["STACK UNDERFLOW! Stack is empty..."]
     /\ reg s' = reg (init 0))
  /\ (exists s', handle_POP 0 (set_reg [9; 0; 0; 0; 0; 0; 0; 243] (init 0)) = (Ret tt, s')
        /\ reg s' = [0; 0; 0; 0; 0; 0; 0; 244]).
Proof.
  split.
  - destruct (proj1 (handle_POP_spec (init 0) 0 244 eq_refl))
      as (s' & H & Ho & _ & Hr & _); [lia|]. exists s'. auto.
  - destruct (proj2 (handle_POP_spec (set_reg [9; 0; 0; 0; 0; 0; 0; 243] (init 0))
                       0 243 eq_refl)) as (v & x & Hv & Hx & H & _);
      [repeat split; simpl; lia | lia | lia |].
    eexists. split; [exact H|].
    injection Hv as <-. injection Hx as <-. reflexivity.
Defined.

(** C6: from a state whose stack pointer lies within the stack, that is
    [end_of_stack <= SP - 1] and [SP <= 0xF4], PUSH of register [r]
    followed at once by POP into [r] ends normally with every register as
    it was: [reg[r]] holds its original value and SP is back at [sp]. *)
Theorem handle_PUSH_POP_roundtrip (s : CPU) (r sp : Z) :
  well_formed s -> 0 <= r < 8 -> sp_is s sp ->
  end_of_stack s <= sp - 1 -> sp <= 244 ->
  exists s', (handle_PUSH r ;;; handle_POP r) s = (Ret tt, s')
    /\ reg s' !! Z.to_nat r = reg s !! Z.to_nat r
    /\ sp_is s' sp
    /\ reg s' = reg s.
Proof.
  intros Hwf Hr Hsp Hge Hle.
  pose proof Hwf as (Hram & Hreg & Heos).
  unfold sp_is in Hsp. change (Z.to_nat SP) with 7%nat in Hsp.
  destruct (proj2 (handle_PUSH_spec s r sp Hsp) Hwf Hr Hge ltac:(lia))
    as (v & Hv & Hpush).
  rewrite (bind_Ret _ _ _ _ _ Hpush).
  set (s1 := set_ram _ _).
  assert (Hsp1 : sp_is s1 (sp - 1)).
  { unfold sp_is. subst s1; fields. apply list_lookup_insert_eq. lia. }
  assert (Hcell : PyList.getitem (ram s1) (sp - 1) = Some v).
  { apply PyListFacts.getitem_Some; [lia|]. subst s1; fields.
    apply list_lookup_insert_eq. lia. }
  assert (Hback : <[7%nat := sp - 1 + 1]> (<[Z.to_nat r := v]> (reg s1)) = reg s).
  { subst s1; fields. replace (sp - 1 + 1) with sp by lia.
    destruct (decide (Z.to_nat r = 7%nat)) as [E7|N7].
    - rewrite E7, !list_insert_insert_eq. now apply list_insert_id.
    - rewrite list_lookup_insert_ne in Hv by congruence.
      rewrite (list_insert_insert_ne _ 7%nat (Z.to_nat r)) by congruence.
      rewrite list_insert_insert_eq, (list_insert_id (reg s) 7%nat sp Hsp).
      now apply list_insert_id. }
  assert (Hx : <[Z.to_nat r := v]> (reg s1) !! 7%nat = Some (sp - 1)).
  { subst s1; fields.
    destruct (decide (Z.to_nat r = 7%nat)) as [E7|N7].
    - rewrite E7, list_insert_insert_eq.
      rewrite E7, list_lookup_insert_eq in Hv by lia. injection Hv as <-.
      apply list_lookup_insert_eq. lia.
    - rewrite list_lookup_insert_ne by congruence.
      apply list_lookup_insert_eq. lia. }
  rewrite (handle_POP_ok s1 r (sp - 1) v (sp - 1) Hr); try assumption; try lia.
  - rewrite Hback. eexists. split; [reflexivity|]. fields. auto.
  - subst s1; fields. rewrite length_insert. exact Hreg.
Qed.

Lemma handle_PUSH_POP_roundtrip_witness :
  exists s', (handle_PUSH 0 ;;; handle_POP 0) (set_reg [9; 1; 2; 3; 4; 5; 6; 244] (init 0))
             = (Ret tt, s')
    /\ reg s' !! 0%nat = Some 9
    /\ sp_is s' 244
    /\ reg s' = [9; 1; 2; 3; 4; 5; 6; 244].
Proof.
  apply (handle_PUSH_POP_roundtrip (set_reg [9; 1; 2; 3; 4; 5; 6; 244] (init 0)) 0 244);
    first [reflexivity | lia | repeat split; simpl; lia].
Defined.

(** ** Subroutines: CALL and RET (lines 219-226) *)

Lemma handle_RET_ok (s : CPU) (sp v : Z) :
  sp_is s sp -> PyList.getitem (ram s) sp = Some v ->
  handle_RET s
  = (Ret tt, set_reg (<[7%nat := sp + 1]> (reg s)) (set_pc v s)).
Proof.
  intros Hsp Hv. unfold handle_RET.
  rewrite (bind_Ret _ _ _ _ _ (sp_get s sp Hsp)).
  rewrite (bind_Ret _ _ _ _ _ (ram_read_Some s sp v Hv)).
  rewrite bind_modify.
  exact (sp_iadd (set_pc v s) sp 1 Hsp).
Qed.

Lemma handle_CALL_ok (s : CPU) (r sp t : Z) :
  well_formed s -> 0 <= r < 8 -> sp_is s sp ->
  end_of_stack s <= sp - 1 -> sp <= 256 ->
  <[7%nat := sp - 1]> (reg s) !! Z.to_nat r = Some t ->
  handle_CALL r s
  = (Ret tt, set_pc t (set_ram (<[Z.to_nat (sp - 1) := pc s + 2]> (ram s))
                         (set_reg (<[7%nat := sp - 1]> (reg s)) s))).
Proof.
  intros (Hram & Hreg & Heos) Hr Hsp Hge Hle Ht. unfold handle_CALL.
  rewrite (bind_Ret _ _ _ _ _ (sp_isub s sp 1 Hsp)).
  set (s1 := set_reg _ s).
  assert (Hsp1 : sp_is s1 (sp - 1)) by (subst s1; eapply sp_is_insert; exact Hsp).
  rewrite bind_gets.
  rewrite (bind_Ret _ _ _ _ _ (sp_get s1 _ Hsp1)).
  rewrite (bind_Ret _ _ _ _ _ (ram_write_ok s1 (pc s1 + 2) (sp - 1)
                                  ltac:(subst s1; fields; lia))).
  set (s2 := set_ram _ s1).
  rewrite (bind_Ret _ _ _ _ _ (reg_get_ok s2 r t (proj1 Hr) Ht)).
  reflexivity.
Qed.

(** C5: a CALL through register [r], executed with the program counter at
    [p] and with room on the stack, ends normally; whenever RET then runs
    in a state whose stack pointer and whose memory cell at that stack
    pointer are those the CALL left (the called routine kept the stack
    balanced), the RET sets the program counter to [p + 2] and puts SP back.
    RET right after the CALL is such a state. *)
Theorem handle_CALL_RET_returns (s : CPU) (r sp : Z) :
  well_formed s -> 0 <= r < 8 -> sp_is s sp ->
  end_of_stack s <= sp - 1 -> sp <= 256 ->
  exists s1, handle_CALL r s = (Ret tt, s1)
    /\ sp_is s1 (sp - 1)
    /\ (forall s2, sp_is s2 (sp - 1) ->
          PyList.getitem (ram s2) (sp - 1) = PyList.getitem (ram s1) (sp - 1) ->
          exists s3, handle_RET s2 = (Ret tt, s3)
            /\ pc s3 = pc s + 2 /\ sp_is s3 sp)
    /\ (exists s3, (handle_CALL r ;;; handle_RET) s = (Ret tt, s3)
          /\ pc s3 = pc s + 2 /\ sp_is s3 sp).
Proof.
  intros Hwf Hr Hsp Hge Hle.
  pose proof Hwf as (Hram & Hreg & Heos).
  destruct (lookup_lt_is_Some_2 (<[7%nat := sp - 1]> (reg s)) (Z.to_nat r)) as [t Ht].
  { rewrite length_insert. lia. }
  pose proof (handle_CALL_ok s r sp t Hwf Hr Hsp Hge Hle Ht) as Hcall.
  set (s1 := set_pc t _) in Hcall.
  assert (Hsp1 : sp_is s1 (sp - 1)).
  { unfold sp_is. subst s1; fields. apply list_lookup_insert_eq. lia. }
  assert (Hcell : PyList.getitem (ram s1) (sp - 1) = Some (pc s + 2)).
  { apply PyListFacts.getitem_Some; [lia|]. subst s1; fields.
    apply list_lookup_insert_eq. lia. }
  assert (Hret : forall s2, sp_is s2 (sp - 1) ->
            PyList.getitem (ram s2) (sp - 1) = PyList.getitem (ram s1) (sp - 1) ->
            exists s3, handle_RET s2 = (Ret tt, s3)
              /\ pc s3 = pc s + 2 /\ sp_is s3 sp).
  { intros s2 Hsp2 Hsame. rewrite Hcell in Hsame.
    rewrite (handle_RET_ok s2 (sp - 1) (pc s + 2) Hsp2 Hsame).
    eexists. split; [reflexivity|]. split; [reflexivity|].
    replace (sp - 1 + 1) with sp by lia.
    unfold sp_is. fields. apply list_lookup_insert_eq.
    eapply lookup_lt_Some, Hsp2. }
  exists s1. repeat split; try assumption.
  rewrite (bind_Ret _ _ _ _ _ Hcall). apply Hret; [exact Hsp1 | reflexivity].
Qed.

Lemma handle_CALL_RET_returns_witness :
  exists s3, (handle_CALL 0 ;;; handle_RET)
               (set_pc 10 (set_reg [40; 0; 0; 0; 0; 0; 0; 244] (init 0)))
             = (Ret tt, s3)
    /\ pc s3 = 12 /\ sp_is s3 244.
Proof.
  destruct (handle_CALL_RET_returns
              (set_pc 10 (set_reg [40; 0; 0; 0; 0; 0; 0; 244] (init 0))) 0 244)
    as (s1 & _ & _ & _ & H);
    first [reflexivity | lia | repeat split; simpl; lia | exact H].
Defined.

(** ** Decoding (lines 118-136, 167-180) *)

Lemma bind_unit_ret (m : M unit) (s : CPU) : (m ;;; ret tt) s = m s.
Proof. unfold bind. destruct (m s) as [[[]|e] s']; reflexivity. Qed.

Lemma branchtable_JEQ : branchtable !! JEQ = Some (Handler1 handle_JEQ).
Proof. reflexivity. Qed.

Lemma branchtable_JNE : branchtable !! JNE = Some (Handler1 handle_JNE).
Proof. reflexivity. Qed.

(** The opcodes with a handler are the fourteen of the table. *)
Lemma branchtable_None (IR : Z) :
  branchtable !! IR = None
  <-> IR ∉ [LDI; PRN; HLT; ADD; MUL; PUSH; POP; JMP; CALL; RET; ST; CMP; JEQ; JNE].
Proof.
  unfold branchtable. rewrite <- not_elem_of_list_to_map. reflexivity.
Qed.

Lemma dispatch_JEQ (a b : Z) (s : CPU) : dispatch JEQ a b s = handle_JEQ a s.
Proof.
  unfold dispatch. rewrite branchtable_JEQ.
  change (number_of_operands JEQ) with 1. change (sets_pc JEQ) with 1.
  cbn [Z.eqb Pos.eqb call]. apply bind_unit_ret.
Qed.

Lemma dispatch_JNE (a b : Z) (s : CPU) : dispatch JNE a b s = handle_JNE a s.
Proof.
  unfold dispatch. rewrite branchtable_JNE.
  change (number_of_operands JNE) with 1. change (sets_pc JNE) with 1.
  cbn [Z.eqb Pos.eqb call]. apply bind_unit_ret.
Qed.

(** ** Conditional jumps (lines 231-241) *)

(** C7: with register [r] holding [t], JEQ sets the program counter to [t]
    when the flags equal [E] and to [pc + 2] otherwise; JNE sets it to [t]
    when the flags differ from [E] and to [pc + 2] otherwise; nothing else
    changes.  Both opcodes carry the sets-the-PC bit, so the dispatch block
    of [execute_instruction] runs the handler with the one operand and adds
    nothing to the program counter. *)
Theorem handle_JEQ_JNE_spec (s : CPU) (r t b : Z) :
  0 <= r < 8 -> reg s !! Z.to_nat r = Some t ->
  handle_JEQ r s = (Ret tt, set_pc (if fl s =? E then t else pc s + 2) s)
  /\ handle_JNE r s = (Ret tt, set_pc (if fl s =? E then pc s + 2 else t) s)
  /\ sets_pc JEQ = 1 /\ sets_pc JNE = 1
  /\ dispatch JEQ r b s = handle_JEQ r s
  /\ dispatch JNE r b s = handle_JNE r s.
Proof.
  intros Hr Ht. repeat split.
  - unfold handle_JEQ. rewrite bind_gets. destruct (fl s =? E); [|reflexivity].
    now rewrite (bind_Ret _ _ _ _ _ (reg_get_ok s r t (proj1 Hr) Ht)).
  - unfold handle_JNE. rewrite bind_gets. destruct (fl s =? E); [reflexivity|].
    cbn [negb]. now rewrite (bind_Ret _ _ _ _ _ (reg_get_ok s r t (proj1 Hr) Ht)).
  - apply dispatch_JEQ.
  - apply dispatch_JNE.
Qed.

Lemma handle_JEQ_JNE_spec_witness :
  let s := set_pc 10 (set_reg [40; 0; 0; 0; 0; 0; 0; 244] (init 0)) in
  (handle_JEQ 0 (set_fl E s) = (Ret tt, set_pc 40 (set_fl E s))
   /\ handle_JNE 0 (set_fl E s) = (Ret tt, set_pc 12 (set_fl E s)))
  /\ (handle_JEQ 0 (set_fl L s) = (Ret tt, set_pc 12 (set_fl L s))
      /\ handle_JNE 0 (set_fl L s) = (Ret tt, set_pc 40 (set_fl L s))).
Proof.
  intros s. split.
  - destruct (handle_JEQ_JNE_spec (set_fl E s) 0 40 0) as (H1 & H2 & _);
      [lia | reflexivity |]. split; [exact H1 | exact H2].
  - destruct (handle_JEQ_JNE_spec (set_fl L s) 0 40 0) as (H1 & H2 & _);
      [lia | reflexivity |]. split; [exact H1 | exact H2].
Defined.

(** ** The timer guard (lines 138-142) and the cycle *)

Lemma timer_check_raises (now : Z) (s : CPU) :
  timer_check now s = (Raise TypeError, s).
Proof. reflexivity. Qed.

Lemma execute_instruction_raises (now IR operand_a operand_b : Z) (s : CPU) :
  execute_instruction now IR operand_a operand_b s = (Raise TypeError, s).
Proof.
  unfold execute_instruction. apply bind_Raise, timer_check_raises.
Qed.

Lemma run_halted (fuel : nat) (clock : nat -> Z) (s : CPU) :
  halted s = true -> run (S fuel) clock s = (Ret true, s).
Proof. intros H. cbn [run]. rewrite bind_gets, H. reflexivity. Qed.

Lemma run_raises (fuel : nat) (clock : nat -> Z) (s : CPU) :
  halted s = false ->
  exists e, (e = TypeError \/ e = IndexError)
            /\ run (S fuel) clock s = (Raise e, s).
Proof.
  intros H. cbn [run]. rewrite bind_gets, H, bind_gets.
  destruct (PyList.getitem (ram s) (pc s)) as [IR|] eqn:E0.
  2:{ exists IndexError. split; [tauto|].
      apply bind_Raise, ram_read_None, E0. }
  rewrite (bind_Ret _ _ _ _ _ (ram_read_Some s _ _ E0)), bind_gets.
  destruct (PyList.getitem (ram s) (pc s + 1)) as [a|] eqn:E1.
  2:{ exists IndexError. split; [tauto|].
      apply bind_Raise, ram_read_None, E1. }
  rewrite (bind_Ret _ _ _ _ _ (ram_read_Some s _ _ E1)), bind_gets.
  destruct (PyList.getitem (ram s) (pc s + 2)) as [b|] eqn:E2.
  2:{ exists IndexError. split; [tauto|].
      apply bind_Raise, ram_read_None, E2. }
  rewrite (bind_Ret _ _ _ _ _ (ram_read_Some s _ _ E2)).
  exists TypeError. split; [tauto|].
  apply bind_Raise, execute_instruction_raises.
Qed.

Lemma run_raises_TypeError (fuel : nat) (clock : nat -> Z) (s : CPU) (IR a b : Z) :
  halted s = false ->
  PyList.getitem (ram s) (pc s) = Some IR ->
  PyList.getitem (ram s) (pc s + 1) = Some a ->
  PyList.getitem (ram s) (pc s + 2) = Some b ->
  run (S fuel) clock s = (Raise TypeError, s).
Proof.
  intros H E0 E1 E2. cbn [run]. rewrite bind_gets, H, bind_gets.
  rewrite (bind_Ret _ _ _ _ _ (ram_read_Some s _ _ E0)), bind_gets.
  rewrite (bind_Ret _ _ _ _ _ (ram_read_Some s _ _ E1)), bind_gets.
  rewrite (bind_Ret _ _ _ _ _ (ram_read_Some s _ _ E2)).
  apply bind_Raise, execute_instruction_raises.
Qed.

(** C2: in every state, at every clock reading and for every instruction
    byte and operands, [execute_instruction] first subtracts the two
    datetimes, compares the resulting timedelta with the integer 1, and that
    comparison raises [TypeError]; the call ends there, the machine exactly
    as it was, whatever code follows the guard.  Hence a cycle of [run] on a
    machine that is not halted never completes: it raises, [TypeError] once
    the three bytes at [pc] have been fetched. *)
Theorem execute_instruction_timer_guard_raises
    (s : CPU) (now IR operand_a operand_b : Z) :
  py_sub (PyDatetime now) (PyDatetime (last_saved_time s))
  = Ret (PyTimedelta (now - last_saved_time s))
  /\ py_ge (PyTimedelta (now - last_saved_time s)) (PyInt 1) = Raise TypeError
  /\ (forall k : M unit, (timer_check now ;;; k) s = (Raise TypeError, s))
  /\ execute_instruction now IR operand_a operand_b s = (Raise TypeError, s)
  /\ (forall (fuel : nat) (clock : nat -> Z),
        exists e, (e = TypeError \/ e = IndexError)
          /\ run (S fuel) clock s
             = if halted s then (Ret true, s) else (Raise e, s)).
Proof.
  split; [reflexivity|]. split; [reflexivity|].
  split; [intros k; apply bind_Raise, timer_check_raises|].
  split; [apply execute_instruction_raises|].
  intros fuel clock. destruct (halted s) eqn:H.
  - exists TypeError. split; [tauto|]. now apply run_halted.
  - now apply run_raises.
Qed.

(** ** The dispatch block on an opcode without a handler (lines 167-180) *)

Lemma fits_str_true (v : Z) :
  Z.abs v < 10 ^ int_max_str_digits -> fits_str v = true.
Proof. intros H. unfold fits_str. now apply Z.ltb_lt. Qed.

Lemma fits_str_false (v : Z) :
  10 ^ int_max_str_digits <= Z.abs v -> fits_str v = false.
Proof. intros H. unfold fits_str. now apply Z.ltb_ge. Qed.

Lemma dispatch_unknown (IR operand_a operand_b : Z) (s : CPU) :
  branchtable !! IR = None -> fits_str IR = true ->
  dispatch IR operand_a operand_b s
  = (Ret tt,
     (if sets_pc IR =? 0 then set_pc (pc s + (number_of_operands IR + 1)) else id)
       (set_halted true
          (set_stdout (stdout s ++ ["Unknown instruction " +:+ pretty IR]) s))).
Proof.
  intros H Hfits. unfold dispatch. rewrite H. unfold py_str. rewrite Hfits.
  destruct (sets_pc IR =? 0); reflexivity.
Qed.

Lemma dispatch_unknown_too_long (IR operand_a operand_b : Z) (s : CPU) :
  branchtable !! IR = None -> fits_str IR = false ->
  dispatch IR operand_a operand_b s = (Raise ValueError, s).
Proof.
  intros H Hlong. unfold dispatch. rewrite H. unfold py_str. rewrite Hlong.
  reflexivity.
Qed.

(** C9, on the code: a fresh machine holds the byte 0 at address 0, and 0
    has no handler.  The dispatch block alone would print the diagnostic and
    set [halted]; the cycle never reaches it: [execute_instruction] and
    [run] raise [TypeError] at the timer guard, [halted] still false and
    nothing printed. *)
Theorem execute_instruction_unknown_opcode_raises :
  forall (t now : Z) (fuel : nat) (clock : nat -> Z),
    let s := init t in
    pc s = 0 /\ PyList.getitem (ram s) 0 = Some 0 /\ branchtable !! 0 = None
    /\ dispatch 0 0 0 s
       = (Ret tt, set_pc 1 (set_halted true (set_stdout ["Unknown instruction 0"] s)))
    /\ execute_instruction now 0 0 0 s = (Raise TypeError, s)
    /\ run (S fuel) clock s = (Raise TypeError, s)
    /\ halted s = false /\ stdout s = [].
Proof.
  intros t now fuel clock s.
  split; [reflexivity|]. split; [reflexivity|]. split; [reflexivity|].
  split; [reflexivity|].
  split; [apply execute_instruction_raises|].
  split; [|split; reflexivity].
  now apply (run_raises_TypeError fuel clock s 0 0 0).
Qed.

(** ** The interrupt scan (lines 144-163) *)

Lemma bit_test (m i : Z) :
  0 <= i -> (Z.land (Z.shiftr m i) 1 =? 1) = Z.testbit m i.
Proof.
  intros Hi. change 1 with (Z.ones 1) at 1.
  rewrite Z.land_ones by lia. change (2 ^ 1) with 2.
  rewrite <- Z.bit0_mod, Z.shiftr_spec by lia. rewrite Z.add_0_l.
  now destruct (Z.testbit m i).
Qed.

(** A loop whose body breaks after [act] on the first index that passes the
    test runs [act] once when some index passes, and nothing otherwise. *)
Lemma for_each_break_first (test : Z -> bool) (act : M unit) (l : list Z) (s : CPU) :
  for_each_break l (fun i => if test i then act ;;; ret true else ret false) s
  = if existsb test l then act s else (Ret tt, s).
Proof.
  induction l as [|i l IH]; [reflexivity|].
  cbn [for_each_break existsb]. destruct (test i); cbn [orb].
  - unfold bind. destruct (act s) as [[[]|e] s']; reflexivity.
  - rewrite bind_ret. exact IH.
Qed.


Lemma store_field_at_sp (f : CPU -> Z) (s : CPU) (sp : Z) :
  sp_is s sp -> 0 <= sp < Z.of_nat (length (ram s)) ->
  (x <- gets f ;; a <- reg_get SP ;; ram_write x a) s
  = (Ret tt, set_ram (<[Z.to_nat sp := f s]> (ram s)) s).
Proof.
  intros Hsp Hin. rewrite bind_gets.
  rewrite (bind_Ret _ _ _ _ _ (sp_get s sp Hsp)).
  now apply ram_write_ok.
Qed.

Lemma push_register (s : CPU) (i v sp : Z) :
  sp_is s sp -> 0 <= i ->
  <[7%nat := sp - 1]> (reg s) !! Z.to_nat i = Some v ->
  0 <= sp - 1 < Z.of_nat (length (ram s)) ->
  (reg_isub SP 1 ;;; x <- reg_get i ;; a <- reg_get SP ;; ram_write x a) s
  = (Ret tt, set_ram (<[Z.to_nat (sp - 1) := v]> (ram s))
               (set_reg (<[7%nat := sp - 1]> (reg s)) s)).
Proof.
  intros Hsp Hi Hv Hin.
  rewrite (bind_Ret _ _ _ _ _ (sp_isub s sp 1 Hsp)).
  set (s1 := set_reg _ s).
  assert (Hsp1 : sp_is s1 (sp - 1)) by (subst s1; eapply sp_is_insert; exact Hsp).
  rewrite (bind_Ret _ _ _ _ _ (reg_get_ok s1 i v Hi Hv)).
  rewrite (bind_Ret _ _ _ _ _ (sp_get s1 _ Hsp1)).
  now rewrite (ram_write_ok s1 v (sp - 1)).
Qed.

Ltac flatten_state :=
  cbv beta delta [set_ram set_reg set_pc set_fl set_halted set_last_saved_time
                  set_stdout];
  cbn [ram reg pc fl halted end_of_stack last_saved_time stdout].
Ltac mstep tac := erewrite bind_Ret; [| tac]; flatten_state.
Ltac in_ram H := fields; rewrite ?length_insert, H; lia.

Lemma clear_and_save (s : CPU) (r0 r1 r2 r3 r4 r5 r6 sp : Z) :
  reg s = [r0; r1; r2; r3; r4; r5; r6; sp] ->
  length (ram s) = 256%nat -> 9 <= sp <= 256 ->
  (reg_set 5 0 ;;; reg_set 6 0 ;;; save_state) s
  = (Ret tt,
     set_ram (stack_writes [pc s; fl s; r0; r1; r2; r3; r4; 0; 0] sp (ram s))
       (set_reg [r0; r1; r2; r3; r4; 0; 0; sp - 9] s)).
Proof.
  destruct s as [m r p f h e t o]; fields. intros -> Hram Hsp.
  mstep ltac:(apply reg_set_ok; fields; cbn [length]; lia).
  mstep ltac:(apply reg_set_ok; fields; rewrite ?length_insert; cbn [length]; lia).
  unfold save_state.
  mstep ltac:(eapply sp_isub; reflexivity).
  mstep ltac:(eapply store_field_at_sp; [reflexivity | in_ram Hram]).
  mstep ltac:(eapply sp_isub; reflexivity).
  mstep ltac:(eapply store_field_at_sp; [reflexivity | in_ram Hram]).
  cbn [range seq fmap list_fmap Z.of_nat Pos.of_succ_nat Pos.succ for_each].
  do 7 (mstep ltac:(eapply push_register;
                    [reflexivity | lia | reflexivity | in_ram Hram])).
  unfold ret. flatten_state. f_equal. f_equal.
  change (Z.to_nat 5) with 5%nat. change (Z.to_nat 6) with 6%nat.
  cbn [insert list_insert]. do 8 f_equal. lia.
Qed.

(** The scan block alone: with some bit 0..7 of [reg[5] & reg[6]] set, it
    clears registers 5 and 6 and saves the state once, whatever the number
    of set bits. *)
Lemma interrupt_check_saves (s : CPU) (r0 r1 r2 r3 r4 r5 r6 sp : Z) :
  reg s = [r0; r1; r2; r3; r4; r5; r6; sp] ->
  length (ram s) = 256%nat -> 9 <= sp <= 256 ->
  existsb (Z.testbit (Z.land r5 r6)) (range 8) = true ->
  interrupt_check s
  = (Ret tt,
     set_ram (stack_writes [pc s; fl s; r0; r1; r2; r3; r4; 0; 0] sp (ram s))
       (set_reg [r0; r1; r2; r3; r4; 0; 0; sp - 9] s)).
Proof.
  intros Hreg Hram Hsp Hbit. unfold interrupt_check.
  rewrite (bind_Ret _ _ _ _ _ (reg_get_ok s 5 r5 ltac:(lia) ltac:(now rewrite Hreg))).
  rewrite (bind_Ret _ _ _ _ _ (reg_get_ok s 6 r6 ltac:(lia) ltac:(now rewrite Hreg))).
  cbv zeta.
  transitivity
    (for_each_break (range 8)
       (fun i => if Z.land (Z.shiftr (Z.land r5 r6) i) 1 =? 1
                 then (reg_set 5 0 ;;; reg_set 6 0 ;;; save_state) ;;; ret true
                 else ret false) s).
  { generalize (range 8). intros l. revert s Hreg Hram.
    induction l as [|i l IH]; intros s Hreg Hram; [reflexivity|].
    cbn [for_each_break]. destruct (Z.land (Z.shiftr (Z.land r5 r6) i) 1 =? 1).
    - unfold bind. destruct (reg_set 5 0 s) as [[[]|?] s1]; [|reflexivity].
      destruct (reg_set 6 0 s1) as [[[]|?] s2]; [|reflexivity].
      destruct (save_state s2) as [[[]|?] s3]; reflexivity.
    - rewrite !bind_ret. now apply IH. }
  rewrite (for_each_break_first
             (fun i => Z.land (Z.shiftr (Z.land r5 r6) i) 1 =? 1)).
  replace (existsb _ (range 8)) with true.
  - now apply (clear_and_save s r0 r1 r2 r3 r4 r5 r6 sp).
  - rewrite <- Hbit. cbn [range seq fmap list_fmap existsb].
    rewrite !bit_test by lia. reflexivity.
Qed.

(** C10, on the code: take the fresh machine with registers 5 and 6 both
    holding 1, so that bit 0 of the masked result is pending.  The scan
    block alone would clear both registers and push [pc], [fl] and registers
    0..6 below 0xF4; the cycle never reaches it: [execute_instruction]
    raises [TypeError] at the timer guard with registers 5 and 6 still 1,
    SP still 0xF4 and memory untouched. *)
Theorem execute_instruction_pending_interrupt_raises :
  forall (now IR operand_a operand_b : Z),
    let s := set_reg [0; 0; 0; 0; 0; 1; 1; 244] (init 0) in
    Z.testbit (Z.land 1 1) 0 = true
    /\ interrupt_check s
       = (Ret tt,
          set_ram (stack_writes [0; 0; 0; 0; 0; 0; 0; 0; 0] 244 (ram s))
            (set_reg [0; 0; 0; 0; 0; 0; 0; 235] s))
    /\ execute_instruction now IR operand_a operand_b s = (Raise TypeError, s)
    /\ reg s !! 5%nat = Some 1 /\ reg s !! 6%nat = Some 1 /\ sp_is s 244.
Proof.
  intros now IR operand_a operand_b s.
  split; [reflexivity|].
  split; [apply (interrupt_check_saves s 0 0 0 0 0 1 1 244); first [reflexivity | lia]|].
  split; [apply execute_instruction_raises|].
  repeat split.
Qed.

(** ** The invariant holds of a fresh machine *)

Lemma init_well_formed (now : Z) : well_formed (init now).
Proof. repeat split. cbn. lia. Qed.

(** * Further properties of the code *)

(** ** Memory accessors (lines 42-46) *)

Lemma index_alias (n : nat) (a : Z) :
  0 <= a < Z.of_nat n -> PyList.index n (a - Z.of_nat n) = PyList.index n a.
Proof.
  intros Ha. rewrite PyListFacts.index_negative, PyListFacts.index_nonneg by lia.
  f_equal. lia.
Qed.

(** X1: a write at any address Python accepts, [-len <= a < len], returns
    normally, a read at the same address then answers the value written,
    the number of cells is as before, every cell at another position and
    every other field is untouched. *)
Theorem ram_write_then_read (s : CPU) (v a : Z) :
  - Z.of_nat (length (ram s)) <= a < Z.of_nat (length (ram s)) ->
  exists m', ram_write v a s = (Ret tt, set_ram m' s)
    /\ ram_read a (set_ram m' s) = (Ret v, set_ram m' s)
    /\ length m' = length (ram s)
    /\ (forall b, PyList.index (length (ram s)) b <> PyList.index (length (ram s)) a ->
          PyList.getitem m' b = PyList.getitem (ram s) b).
Proof.
  intros Ha.
  destruct (PyListFacts.setitem_is_Some (ram s) a v Ha) as [m' Hm'].
  exists m'. split; [now apply ram_write_Some|].
  split; [apply ram_read_Some; fields; eapply PyListFacts.getitem_setitem, Hm'|].
  split; [eapply PyListFacts.setitem_length, Hm'|].
  intros b Hb. unfold PyList.getitem.
  rewrite (PyListFacts.setitem_length _ _ _ _ Hm').
  unfold PyList.setitem in Hm'.
  destruct (PyList.index (length (ram s)) a) as [k|]; [|discriminate].
  injection Hm' as <-.
  destruct (PyList.index (length (ram s)) b) as [j|]; [|reflexivity].
  apply list_lookup_insert_ne. congruence.
Qed.

Lemma ram_write_then_read_witness :
  exists m', ram_write 7 (-1) (init 0) = (Ret tt, set_ram m' (init 0))
    /\ ram_read (-1) (set_ram m' (init 0)) = (Ret 7, set_ram m' (init 0))
    /\ length m' = 256%nat.
Proof.
  destruct (ram_write_then_read (init 0) 7 (-1)) as (m' & H1 & H2 & H3 & _);
    [cbn; lia|].
  exists m'. repeat split; assumption.
Defined.

(** X2: an address below [-len] or from [len] on makes both accessors raise
    [IndexError], the machine as it was. *)
Theorem ram_access_out_of_range (s : CPU) (v a : Z) :
  a < - Z.of_nat (length (ram s)) \/ Z.of_nat (length (ram s)) <= a ->
  ram_read a s = (Raise IndexError, s)
  /\ ram_write v a s = (Raise IndexError, s).
Proof.
  intros Ha. pose proof (PyListFacts.index_outside _ _ Ha) as Hi. split.
  - apply ram_read_None. unfold PyList.getitem. now rewrite Hi.
  - unfold ram_write. rewrite bind_gets. unfold PyList.setitem. now rewrite Hi.
Qed.

Lemma ram_access_out_of_range_witness :
  ram_read 256 (init 0) = (Raise IndexError, init 0)
  /\ ram_write 1 256 (init 0) = (Raise IndexError, init 0).
Proof. apply (ram_access_out_of_range (init 0) 1 256). right. cbn. lia. Defined.

(** X3: a negative address counts from the end of memory: for a cell
    [0 <= a < len], the address [a - len] reads and writes that same
    cell. *)
Theorem ram_negative_address_alias (s : CPU) (v a : Z) :
  0 <= a < Z.of_nat (length (ram s)) ->
  ram_read (a - Z.of_nat (length (ram s))) s = ram_read a s
  /\ ram_write v (a - Z.of_nat (length (ram s))) s = ram_write v a s.
Proof.
  intros Ha. unfold ram_read, ram_write. rewrite !bind_gets.
  unfold PyList.getitem, PyList.setitem. now rewrite (index_alias _ _ Ha).
Qed.

Lemma ram_negative_address_alias_witness :
  ram_read (255 - 256) (init 0) = ram_read 255 (init 0)
  /\ ram_write 9 (255 - 256) (init 0) = ram_write 9 255 (init 0).
Proof. apply (ram_negative_address_alias (init 0) 9 255). cbn. lia. Defined.

(** ** Data movement (lines 184-191, 228-229) *)

(** X4: LDI of an integer [v] into register [r] followed by PRN of [r].
    The register holds [v] unmasked.  When [v] has at most 4300 decimal
    digits, PRN prints the decimal text of [v] on a line of its own and
    nothing else changes; when it has more, the conversion to text raises
    [ValueError] and nothing is printed. *)
Theorem handle_LDI_PRN (s : CPU) (r v : Z) :
  0 <= r < Z.of_nat (length (reg s)) ->
  (Z.abs v < 10 ^ int_max_str_digits ->
   (handle_LDI r v ;;; handle_PRN r) s
   = (Ret tt, set_stdout (stdout s ++ [pretty v])
                (set_reg (<[Z.to_nat r := v]> (reg s)) s)))
  /\ (10 ^ int_max_str_digits <= Z.abs v ->
      (handle_LDI r v ;;; handle_PRN r) s
      = (Raise ValueError, set_reg (<[Z.to_nat r := v]> (reg s)) s)).
Proof.
  intros Hr. unfold handle_LDI, handle_PRN.
  rewrite (bind_Ret _ _ _ _ _ (reg_set_ok s r v Hr)).
  set (s1 := set_reg _ s).
  assert (H : reg s1 !! Z.to_nat r = Some v).
  { subst s1; fields. apply list_lookup_insert_eq. lia. }
  rewrite (bind_Ret _ _ _ _ _ (reg_get_ok s1 r v (proj1 Hr) H)).
  unfold py_str. split; intros Hv.
  - now rewrite (fits_str_true v Hv).
  - now rewrite (fits_str_false v Hv).
Qed.

Lemma handle_LDI_PRN_witness :
  (handle_LDI 0 (-300) ;;; handle_PRN 0) (init 0)
  = (Ret tt, set_stdout ["-300"] (set_reg [-300; 0; 0; 0; 0; 0; 0; 244] (init 0)))
  /\ (handle_LDI 0 (10 ^ 4300) ;;; handle_PRN 0) (init 0)
     = (Raise ValueError, set_reg [10 ^ 4300; 0; 0; 0; 0; 0; 0; 244] (init 0)).
Proof.
  split.
  - apply (proj1 (handle_LDI_PRN (init 0) 0 (-300) ltac:(change (0 <= 0 < 8); lia))).
    vm_compute. reflexivity.
  - apply (proj2 (handle_LDI_PRN (init 0) 0 (10 ^ 4300)
                    ltac:(change (0 <= 0 < 8); lia))).
    vm_compute. discriminate.
Defined.

(** X5: ST with register [a] holding the address [addr] and register [b]
    holding [v]: for an address within [-len, len) the value is stored and a
    read at [addr] answers it, registers untouched; for any other address ST
    raises [IndexError] and changes nothing. *)
Theorem handle_ST_spec (s : CPU) (a b addr v : Z) :
  0 <= a -> 0 <= b ->
  reg s !! Z.to_nat a = Some addr -> reg s !! Z.to_nat b = Some v ->
  (- Z.of_nat (length (ram s)) <= addr < Z.of_nat (length (ram s)) ->
   exists m', handle_ST a b s = (Ret tt, set_ram m' s)
     /\ ram_read addr (set_ram m' s) = (Ret v, set_ram m' s))
  /\ (addr < - Z.of_nat (length (ram s)) \/ Z.of_nat (length (ram s)) <= addr ->
      handle_ST a b s = (Raise IndexError, s)).
Proof.
  intros Ha Hb Haddr Hv.
  assert (Hst : handle_ST a b s = ram_write v addr s).
  { unfold handle_ST.
    rewrite (bind_Ret _ _ _ _ _ (reg_get_ok s b v Hb Hv)).
    now rewrite (bind_Ret _ _ _ _ _ (reg_get_ok s a addr Ha Haddr)). }
  rewrite Hst. split.
  - intros Hin.
    destruct (PyListFacts.setitem_is_Some (ram s) addr v Hin) as [m' Hm'].
    exists m'. split; [now apply ram_write_Some|].
    apply ram_read_Some; fields. eapply PyListFacts.getitem_setitem, Hm'.
  - intros Hout. pose proof (PyListFacts.index_outside _ _ Hout) as Hi.
    unfold ram_write. rewrite bind_gets. unfold PyList.setitem. now rewrite Hi.
Qed.

Lemma handle_ST_spec_witness :
  (exists m', handle_ST 0 1 (set_reg [200; 5; 0; 0; 0; 0; 0; 244] (init 0))
              = (Ret tt, set_ram m' (set_reg [200; 5; 0; 0; 0; 0; 0; 244] (init 0)))
     /\ ram_read 200 (set_ram m' (set_reg [200; 5; 0; 0; 0; 0; 0; 244] (init 0)))
        = (Ret 5, set_ram m' (set_reg [200; 5; 0; 0; 0; 0; 0; 244] (init 0))))
  /\ handle_ST 0 1 (set_reg [300; 5; 0; 0; 0; 0; 0; 244] (init 0))
     = (Raise IndexError, set_reg [300; 5; 0; 0; 0; 0; 0; 244] (init 0)).
Proof.
  split.
  - apply (handle_ST_spec (set_reg [200; 5; 0; 0; 0; 0; 0; 244] (init 0)) 0 1 200 5);
      first [reflexivity | lia | cbn; lia].
  - apply (handle_ST_spec (set_reg [300; 5; 0; 0; 0; 0; 0; 244] (init 0)) 0 1 300 5);
      first [reflexivity | lia | cbn; lia].
Defined.

(** ** The ALU handler (lines 193-195) *)

Lemma branchtable_ALU (IR : Z) :
  IR ∈ [ADD; MUL; CMP] ->
  branchtable !! IR = Some (Handler2 handle_ALU)
  /\ number_of_operands IR = 2 /\ sets_pc IR = 0.
Proof.
  intros H. repeat (apply elem_of_cons in H as [->|H]); [| | |by apply elem_of_nil in H];
    repeat split.
Qed.

(** X6: [handle_ALU] takes its operation from the byte stored at [pc], not
    from the opcode that was dispatched: whichever of ADD, MUL, CMP is
    dispatched, the ALU performs the operation [op] found at [pc] and the
    program counter then moves on by 3; when that byte is none of the three
    the handler raises [Exception("Unsupported ALU operation")] and changes
    nothing. *)
Theorem handle_ALU_reads_opcode_at_pc (s : CPU) (op a b : Z) :
  PyList.getitem (ram s) (pc s) = Some op ->
  handle_ALU a b s = alu op a b s
  /\ (forall IR, IR ∈ [ADD; MUL; CMP] ->
        dispatch IR a b s
        = (alu op a b ;;; modify (fun s' => set_pc (pc s' + 3) s')) s)
  /\ (op ∉ [ADD; MUL; CMP] ->
        handle_ALU a b s = (Raise (Exception "Unsupported ALU operation"), s)).
Proof.
  intros Hop.
  assert (H : handle_ALU a b s = alu op a b s).
  { unfold handle_ALU. rewrite bind_gets.
    now rewrite (bind_Ret _ _ _ _ _ (ram_read_Some s _ _ Hop)). }
  split; [exact H|]. split.
  - intros IR HIR. destruct (branchtable_ALU IR HIR) as (Hb & Hn & Hs).
    unfold dispatch. rewrite Hb, Hn, Hs. cbn [Z.eqb Pos.eqb call Z.add Pos.add].
    unfold bind at 1. rewrite H. reflexivity.
  - intros Hno. rewrite H. unfold alu.
    destruct (Z.eqb_spec op ADD) as [->|_]; [exfalso; apply Hno; set_solver|].
    destruct (Z.eqb_spec op MUL) as [->|_]; [exfalso; apply Hno; set_solver|].
    destruct (Z.eqb_spec op CMP) as [->|_]; [exfalso; apply Hno; set_solver|].
    reflexivity.
Qed.

(** ADD is dispatched while MUL is the byte at [pc]: the registers are
    multiplied. *)
Lemma handle_ALU_reads_opcode_at_pc_witness :
  let s := set_ram (<[0%nat := MUL]> (replicate 256 0))
             (set_reg [6; 7; 0; 0; 0; 0; 0; 244] (init 0)) in
  dispatch ADD 0 1 s
  = (Ret tt, set_pc 3 (set_reg [42; 7; 0; 0; 0; 0; 0; 244] s)).
Proof.
  intros s.
  destruct (handle_ALU_reads_opcode_at_pc s MUL 0 1 eq_refl) as (_ & H & _).
  rewrite (H ADD) by set_solver. reflexivity.
Defined.

(** ** Subroutine calls take no account of the stack bounds (lines 219-226) *)

Lemma handle_CALL_unchecked (s : CPU) (r sp t : Z) :
  length (ram s) = 256%nat -> 0 <= r -> sp_is s sp -> 1 <= sp <= 256 ->
  <[7%nat := sp - 1]> (reg s) !! Z.to_nat r = Some t ->
  handle_CALL r s
  = (Ret tt, set_pc t (set_ram (<[Z.to_nat (sp - 1) := pc s + 2]> (ram s))
                         (set_reg (<[7%nat := sp - 1]> (reg s)) s))).
Proof.
  intros Hram Hr Hsp Hin Ht. unfold handle_CALL.
  rewrite (bind_Ret _ _ _ _ _ (sp_isub s sp 1 Hsp)).
  set (s1 := set_reg _ s).
  assert (Hsp1 : sp_is s1 (sp - 1)) by (subst s1; eapply sp_is_insert; exact Hsp).
  rewrite bind_gets.
  rewrite (bind_Ret _ _ _ _ _ (sp_get s1 _ Hsp1)).
  rewrite (bind_Ret _ _ _ _ _ (ram_write_ok s1 (pc s1 + 2) (sp - 1)
                                  ltac:(subst s1; fields; lia))).
  set (s2 := set_ram _ s1).
  rewrite (bind_Ret _ _ _ _ _ (reg_get_ok s2 r t Hr Ht)).
  reflexivity.
Qed.

(** X7: CALL has no overflow check.  In a state where PUSH refuses to go on
    ([SP - 1 < end_of_stack]) CALL still returns normally: it decrements SP
    and stores [pc + 2] at the new SP, a cell below [end_of_stack], that is,
    inside the loaded program. *)
Theorem handle_CALL_no_overflow_check (s : CPU) (r sp : Z) :
  well_formed s -> 0 <= r < 8 -> sp_is s sp ->
  1 <= sp <= 256 -> sp - 1 < end_of_stack s ->
  (exists s', handle_PUSH r s = (Raise (SystemExit 1), s') /\ ram s' = ram s)
  /\ (exists t,
        <[7%nat := sp - 1]> (reg s) !! Z.to_nat r = Some t
        /\ handle_CALL r s
           = (Ret tt, set_pc t (set_ram (<[Z.to_nat (sp - 1) := pc s + 2]> (ram s))
                                  (set_reg (<[7%nat := sp - 1]> (reg s)) s)))
        /\ (Z.to_nat (sp - 1) < Z.to_nat (end_of_stack s))%nat).
Proof.
  intros (Hram & Hreg & Heos) Hr Hsp Hin Hover. split.
  - eexists. split; [apply (handle_PUSH_overflow s r sp Hsp Hover)|reflexivity].
  - destruct (lookup_lt_is_Some_2 (<[7%nat := sp - 1]> (reg s)) (Z.to_nat r)) as [t Ht].
    { rewrite length_insert. lia. }
    exists t. split; [exact Ht|]. split; [|lia].
    apply handle_CALL_unchecked; try assumption; lia.
Qed.

(** A program of 250 bytes and a stack that has come down to it. *)
Lemma handle_CALL_no_overflow_check_witness :
  let s := mkCPU (replicate 256 1) [20; 0; 0; 0; 0; 0; 0; 250] 5 0 false 250 0 [] in
  handle_CALL 0 s
  = (Ret tt, mkCPU (<[249%nat := 7]> (replicate 256 1))
               [20; 0; 0; 0; 0; 0; 0; 249] 20 0 false 250 0 []).
Proof.
  intros s.
  destruct (handle_CALL_no_overflow_check s 0 250) as (_ & t & Ht & H & _);
    [repeat split; simpl; lia | lia | reflexivity | lia | simpl; lia |].
  injection Ht as <-. exact H.
Defined.

(** X8: RET has no underflow check.  With the stack empty or SP above its
    initial value ([0xF4 <= SP < 256]), where POP exits with the underflow
    message, RET returns normally: it loads [pc] from the cell at SP and
    leaves SP one higher. *)
Theorem handle_RET_no_underflow_check (s : CPU) (r sp : Z) :
  length (ram s) = 256%nat -> sp_is s sp -> 244 <= sp < 256 ->
  (exists s', handle_POP r s = (Raise (SystemExit 1), s') /\ reg s' = reg s)
  /\ (exists v, ram s !! Z.to_nat sp = Some v
        /\ handle_RET s
           = (Ret tt, set_reg (<[7%nat := sp + 1]> (reg s)) (set_pc v s))).
Proof.
  intros Hram Hsp Hin. split.
  - eexists. split; [apply (handle_POP_underflow s r sp Hsp); lia | reflexivity].
  - destruct (lookup_lt_is_Some_2 (ram s) (Z.to_nat sp)) as [v Hv]; [lia|].
    exists v. split; [exact Hv|].
    apply handle_RET_ok; [exact Hsp|].
    apply PyListFacts.getitem_Some; [lia | exact Hv].
Qed.

Lemma handle_RET_no_underflow_check_witness :
  handle_RET (init 0)
  = (Ret tt, set_reg [0; 0; 0; 0; 0; 0; 0; 245] (set_pc 0 (init 0))).
Proof.
  destruct (handle_RET_no_underflow_check (init 0) 0 244) as (_ & v & Hv & H);
    [reflexivity | reflexivity | lia |].
  injection Hv as <-. exact H.
Defined.

(** ** The stack is last-in, first-out (lines 197-212) *)

Lemma bind_assoc {A B C} (m : M A) (k : A -> M B) (k' : B -> M C) (s : CPU) :
  bind (bind m k) k' s = bind m (fun a => bind (k a) k') s.
Proof. unfold bind. destruct (m s) as [[a|e] s']; reflexivity. Qed.

Lemma bind_ext {A B} (m : M A) (k k' : A -> M B) (s : CPU) :
  (forall a s', k a s' = k' a s') -> bind m k s = bind m k' s.
Proof. intros H. unfold bind. destruct (m s) as [[a|e] s']; [apply H | reflexivity]. Qed.

Lemma for_each_app (l1 l2 : list Z) (body : Z -> M unit) (s : CPU) :
  for_each (l1 ++ l2) body s = (for_each l1 body ;;; for_each l2 body) s.
Proof.
  revert s. induction l1 as [|i l1 IH]; intros s; [reflexivity|].
  cbn [app for_each]. rewrite bind_assoc. apply bind_ext. intros _ s'. apply IH.
Qed.

Lemma set_ram_same (s : CPU) : set_ram (ram s) s = s.
Proof. now destruct s. Qed.

(** The register file once a value pushed from [r] has come back to [r]. *)
Lemma regs_after_push_pop (rg : list Z) (r sp v : Z) :
  length rg = 8%nat -> 0 <= r < 8 -> rg !! 7%nat = Some sp ->
  <[7%nat := sp - 1]> rg !! Z.to_nat r = Some v ->
  <[Z.to_nat r := v]> (<[7%nat := sp - 1]> rg) !! 7%nat = Some (sp - 1)
  /\ <[7%nat := sp - 1 + 1]> (<[Z.to_nat r := v]> (<[7%nat := sp - 1]> rg)) = rg.
Proof.
  intros Hlen Hr Hsp Hv. replace (sp - 1 + 1) with sp by lia.
  destruct (decide (Z.to_nat r = 7%nat)) as [E7|N7].
  - rewrite E7 in *. rewrite list_lookup_insert_eq in Hv by lia. injection Hv as <-.
    rewrite !list_insert_insert_eq. split.
    + apply list_lookup_insert_eq. lia.
    + now apply list_insert_id.
  - rewrite list_lookup_insert_ne in Hv by congruence. split.
    + rewrite list_lookup_insert_ne by congruence. apply list_lookup_insert_eq. lia.
    + rewrite (list_insert_insert_ne _ 7%nat (Z.to_nat r)) by congruence.
      rewrite list_insert_insert_eq, (list_insert_id rg 7%nat sp Hsp).
      now apply list_insert_id.
Qed.

Lemma push_pop_block (rs : list Z) :
  forall (s : CPU) (sp : Z),
    length (ram s) = 256%nat -> length (reg s) = 8%nat ->
    Forall (fun r => 0 <= r < 8) rs -> sp_is s sp ->
    0 <= end_of_stack s <= sp - Z.of_nat (length rs) -> sp <= 244 ->
    exists m',
      (for_each rs handle_PUSH ;;; for_each (rev rs) handle_POP) s
      = (Ret tt, set_ram m' s)
      /\ length m' = 256%nat
      /\ (forall k, (Z.to_nat sp <= k)%nat -> m' !! k = ram s !! k).
Proof.
  induction rs as [|r rs IH]; intros s sp Hram Hreg Hrs Hsp Hroom Htop.
  - exists (ram s). rewrite set_ram_same. repeat split; assumption.
  - apply Forall_cons in Hrs as [Hr Hrs]. cbn [length] in Hroom.
    assert (Hsp7 : reg s !! 7%nat = Some sp) by exact Hsp.
    destruct (lookup_lt_is_Some_2 (<[7%nat := sp - 1]> (reg s)) (Z.to_nat r)) as [v Hv].
    { rewrite length_insert. lia. }
    assert (Hpush := handle_PUSH_ok s r sp v ltac:(repeat split; lia) Hr Hsp
                       ltac:(lia) ltac:(lia) Hv).
    set (s1 := set_ram _ _) in Hpush.
    assert (Hsp1 : sp_is s1 (sp - 1)).
    { unfold sp_is. subst s1; fields. apply list_lookup_insert_eq. lia. }
    destruct (IH s1 (sp - 1)) as (m1 & Hblock & Hlen1 & Hkeep).
    { subst s1; fields. now rewrite length_insert. }
    { subst s1; fields. now rewrite length_insert. }
    { exact Hrs. }
    { exact Hsp1. }
    { subst s1; fields. lia. }
    { lia. }
    cbn [for_each rev]. rewrite bind_assoc, (bind_Ret _ _ _ _ _ Hpush).
    rewrite (bind_ext _ _ (fun _ => for_each (rev rs) handle_POP ;;;
                                    for_each [r] handle_POP))
      by (intros; apply for_each_app).
    rewrite <- (bind_assoc (for_each rs handle_PUSH)
                  (fun _ => for_each (rev rs) handle_POP)
                  (fun _ => for_each [r] handle_POP)).
    rewrite (bind_Ret _ _ _ _ _ Hblock).
    cbn [for_each]. rewrite bind_unit_ret.
    destruct (regs_after_push_pop (reg s) r sp v Hreg Hr Hsp7 Hv) as [Hx Hback].
    assert (Hcell : PyList.getitem m1 (sp - 1) = Some v).
    { unfold PyList.getitem. rewrite Hlen1, PyListFacts.index_nonneg by lia.
      rewrite Hkeep by lia. subst s1; fields. apply list_lookup_insert_eq. lia. }
    rewrite (handle_POP_ok (set_ram m1 s1) r (sp - 1) v (sp - 1) Hr).
    + exists m1. subst s1; fields. rewrite Hback.
      split; [destruct s; reflexivity|]. split; [exact Hlen1|].
      intros k Hk. rewrite Hkeep by lia. fields.
      apply list_lookup_insert_ne. lia.
    + subst s1; fields. now rewrite length_insert.
    + exact Hsp1.
    + lia.
    + exact Hcell.
    + subst s1; fields. exact Hx.
Qed.

(** X9: pushing the registers [rs] one after the other and then popping
    into them in the reverse order, with room for all of them
    ([0 <= end_of_stack <= SP - len rs] and [SP <= 0xF4]), returns normally
    and restores the whole register file, SP included; the program counter,
    the flags and every memory cell from the original SP upwards are as they
    were. *)
Theorem stack_push_pop_reverse_restores (s : CPU) (rs : list Z) (sp : Z) :
  well_formed s -> Forall (fun r => 0 <= r < 8) rs -> sp_is s sp ->
  end_of_stack s <= sp - Z.of_nat (length rs) -> sp <= 244 ->
  exists s',
    (for_each rs handle_PUSH ;;; for_each (rev rs) handle_POP) s = (Ret tt, s')
    /\ reg s' = reg s /\ pc s' = pc s /\ fl s' = fl s
    /\ length (ram s') = 256%nat
    /\ (forall k, (Z.to_nat sp <= k)%nat -> ram s' !! k = ram s !! k).
Proof.
  intros (Hram & Hreg & Heos) Hrs Hsp Hroom Htop.
  destruct (push_pop_block rs s sp Hram Hreg Hrs Hsp ltac:(lia) Htop)
    as (m' & H & Hlen & Hkeep).
  exists (set_ram m' s). repeat split; assumption.
Qed.

Lemma stack_push_pop_reverse_restores_witness :
  exists s',
    (for_each [0; 1; 7] handle_PUSH ;;; for_each [7; 1; 0] handle_POP)
      (set_reg [11; 22; 33; 0; 0; 0; 0; 244] (init 0)) = (Ret tt, s')
    /\ reg s' = [11; 22; 33; 0; 0; 0; 0; 244].
Proof.
  destruct (stack_push_pop_reverse_restores
              (set_reg [11; 22; 33; 0; 0; 0; 0; 244] (init 0)) [0; 1; 7] 244)
    as (s' & H & Hr & _);
    [repeat split; simpl; lia
    | repeat constructor; lia
    | reflexivity | simpl; lia | lia |].
  exists s'. split; [exact H | exact Hr].
Defined.

(** X10: with room for one value on the stack
    ([0 <= end_of_stack <= SP - 1] and [SP <= 0xF4]), PUSH of register [a]
    followed by POP into register [b], neither of them SP, copies the value
    of [a] into [b]: SP is back where it was, the value also stays in the
    cell below SP, and no other register changes. *)
Theorem handle_PUSH_POP_copies (s : CPU) (a b sp v : Z) :
  well_formed s -> 0 <= a < 7 -> 0 <= b < 7 -> sp_is s sp ->
  end_of_stack s <= sp - 1 -> sp <= 244 ->
  reg s !! Z.to_nat a = Some v ->
  (handle_PUSH a ;;; handle_POP b) s
  = (Ret tt, set_ram (<[Z.to_nat (sp - 1) := v]> (ram s))
               (set_reg (<[Z.to_nat b := v]> (reg s)) s)).
Proof.
  intros Hwf Ha Hb Hsp Hroom Htop Hv.
  pose proof Hwf as (Hram & Hreg & Heos).
  assert (Hsp7 : reg s !! 7%nat = Some sp) by exact Hsp.
  assert (Hv' : <[7%nat := sp - 1]> (reg s) !! Z.to_nat a = Some v).
  { rewrite list_lookup_insert_ne by lia. exact Hv. }
  rewrite (bind_Ret _ _ _ _ _
             (handle_PUSH_ok s a sp v Hwf ltac:(lia) Hsp Hroom ltac:(lia) Hv')).
  set (s1 := set_ram _ _).
  rewrite (handle_POP_ok s1 b (sp - 1) v (sp - 1)).
  - subst s1; fields. replace (sp - 1 + 1) with sp by lia.
    rewrite (list_insert_insert_ne _ 7%nat (Z.to_nat b)) by lia.
    rewrite list_insert_insert_eq, (list_insert_id (reg s) 7%nat sp Hsp7).
    destruct s; reflexivity.
  - lia.
  - subst s1; fields. now rewrite length_insert.
  - unfold sp_is. subst s1; fields. apply list_lookup_insert_eq. lia.
  - lia.
  - apply PyListFacts.getitem_Some; [lia|]. subst s1; fields.
    apply list_lookup_insert_eq. lia.
  - subst s1; fields. rewrite list_lookup_insert_ne by lia.
    apply list_lookup_insert_eq. lia.
Qed.

Lemma handle_PUSH_POP_copies_witness :
  (handle_PUSH 0 ;;; handle_POP 1) (set_reg [11; 22; 33; 0; 0; 0; 0; 244] (init 0))
  = (Ret tt, set_ram (<[243%nat := 11]> (replicate 256 0))
               (set_reg [11; 11; 33; 0; 0; 0; 0; 244] (init 0))).
Proof.
  apply (handle_PUSH_POP_copies (set_reg [11; 22; 33; 0; 0; 0; 0; 244] (init 0))
           0 1 244 11);
    first [reflexivity | lia | repeat split; simpl; lia].
Defined.

(** ** The branch table and the opcode encoding (lines 118-136) *)

Lemma branchtable_Some (IR : Z) (h : handler) :
  branchtable !! IR = Some h ->
  (IR, h) ∈ [ (LDI, Handler2 handle_LDI); (PRN, Handler1 handle_PRN);
              (HLT, Handler0 handle_HLT); (ADD, Handler2 handle_ALU);
              (MUL, Handler2 handle_ALU); (PUSH, Handler1 handle_PUSH);
              (POP, Handler1 handle_POP); (JMP, Handler1 handle_JUMP);
              (CALL, Handler1 handle_CALL); (RET, Handler0 handle_RET);
              (ST, Handler2 handle_ST); (CMP, Handler2 handle_ALU);
              (JEQ, Handler1 handle_JEQ); (JNE, Handler1 handle_JNE) ].
Proof. intros H. apply elem_of_list_to_map_2 in H. exact H. Qed.

Ltac each_opcode H :=
  apply branchtable_Some in H;
  repeat (apply elem_of_cons in H as [H|H]; [injection H as -> ->|]);
  [..|by apply elem_of_nil in H].

(** X11: the table agrees with the encoding.  For every opcode that has a
    handler, the number of operands in the two high bits of the opcode is
    the number of operands the handler takes, so the call made by the
    dispatch never fails on the argument count; and bit 4 is set exactly
    for JMP, CALL, RET, JEQ and JNE. *)
Theorem branchtable_matches_encoding (IR : Z) (h : handler) :
  branchtable !! IR = Some h ->
  arity h = number_of_operands IR
  /\ (sets_pc IR = 1 <-> IR ∈ [JMP; CALL; RET; JEQ; JNE])
  /\ (sets_pc IR = 0 <-> IR ∉ [JMP; CALL; RET; JEQ; JNE]).
Proof.
  intros H. each_opcode H;
    (split; [reflexivity|]);
    rewrite <- !(bool_decide_spec (_ ∈ _)); vm_compute;
    intuition discriminate.
Qed.

Lemma branchtable_matches_encoding_witness :
  arity (Handler1 handle_CALL) = number_of_operands CALL
  /\ (sets_pc CALL = 1 <-> CALL ∈ [JMP; CALL; RET; JEQ; JNE])
  /\ (sets_pc CALL = 0 <-> CALL ∉ [JMP; CALL; RET; JEQ; JNE]).
Proof. apply (branchtable_matches_encoding CALL (Handler1 handle_CALL)). reflexivity. Defined.

(** ** What no instruction changes *)

Section keeps_facts.
Context {B : Type} (f : CPU -> B).

Lemma keeps_ret {A} (a : A) : keeps f (ret a).
Proof. intros s. reflexivity. Qed.

Lemma keeps_raise {A} (e : exn) : keeps f (raise (A := A) e).
Proof. intros s. reflexivity. Qed.

Lemma keeps_gets {A} (g : CPU -> A) : keeps f (gets g).
Proof. intros s. reflexivity. Qed.

Lemma keeps_lift_index {A} (o : option A) : keeps f (lift_index o).
Proof. intros s. now destruct o. Qed.

Lemma keeps_lift {A} (r : result A) : keeps f (lift r).
Proof. intros s. reflexivity. Qed.

Lemma keeps_bind {A C} (m : M A) (k : A -> M C) :
  keeps f m -> (forall a, keeps f (k a)) -> keeps f (bind m k).
Proof.
  intros Hm Hk s. unfold bind. specialize (Hm s).
  destruct (m s) as [[a|e] s']; cbn [snd] in *; [|exact Hm].
  rewrite (Hk a s'). exact Hm.
Qed.

Lemma keeps_modify (g : CPU -> CPU) :
  (forall s, f (g s) = f s) -> keeps f (modify g).
Proof. intros H s. apply H. Qed.

Lemma keeps_reg_get (i : Z) : keeps f (reg_get i).
Proof. apply keeps_bind; [apply keeps_gets | intros; apply keeps_lift_index]. Qed.

Lemma keeps_ram_read (a : Z) : keeps f (ram_read a).
Proof. apply keeps_bind; [apply keeps_gets | intros; apply keeps_lift_index]. Qed.

(** The handlers are built from register and memory assignments and from
    assignments to [pc], [fl] and the output; an observation that these
    leave alone is left alone by every handler but HLT, and by the interrupt
    scan. *)
Hypothesis f_reg_set : forall i v, keeps f (reg_set i v).
Hypothesis f_ram_write : forall v a, keeps f (ram_write v a).
Hypothesis f_set_pc : forall x s, f (set_pc x s) = f s.
Hypothesis f_set_fl : forall x s, f (set_fl x s) = f s.
Hypothesis f_set_stdout : forall x s, f (set_stdout x s) = f s.

Ltac keeps_tac :=
  repeat first
    [ apply keeps_ret | apply keeps_raise | apply keeps_gets
    | apply keeps_lift_index | apply keeps_reg_get | apply keeps_ram_read
    | apply f_reg_set | apply f_ram_write
    | apply keeps_modify; intros; rewrite ?f_set_pc, ?f_set_fl, ?f_set_stdout;
      reflexivity
    | apply keeps_bind; [|intros ?]
    | match goal with |- keeps _ (if ?c then _ else _) => destruct c end ].

Lemma keeps_reg_iadd (i d : Z) : keeps f (reg_iadd i d).
Proof using f_reg_set. unfold reg_iadd. keeps_tac. Qed.

Lemma keeps_reg_isub (i d : Z) : keeps f (reg_isub i d).
Proof using f_reg_set. unfold reg_isub. keeps_tac. Qed.

Lemma keeps_alu (op a b : Z) : keeps f (alu op a b).
Proof using f_reg_set f_set_fl. unfold alu. keeps_tac. Qed.

Lemma keeps_for_each (l : list Z) (body : Z -> M unit) :
  (forall i, keeps f (body i)) -> keeps f (for_each l body).
Proof.
  intros H. induction l as [|i l IH]; [apply keeps_ret|].
  cbn [for_each]. apply keeps_bind; [apply H | intros; exact IH].
Qed.

Lemma keeps_for_each_break (l : list Z) (body : Z -> M bool) :
  (forall i, keeps f (body i)) -> keeps f (for_each_break l body).
Proof.
  intros H. induction l as [|i l IH]; [apply keeps_ret|].
  cbn [for_each_break]. apply keeps_bind; [apply H|].
  intros []; [apply keeps_ret | exact IH].
Qed.

Ltac keeps_all :=
  cbv zeta;
  repeat first
    [ apply keeps_ret | apply keeps_raise | apply keeps_gets
    | apply keeps_lift_index | apply keeps_lift
    | apply keeps_reg_get | apply keeps_ram_read
    | apply f_reg_set | apply f_ram_write
    | apply keeps_reg_iadd | apply keeps_reg_isub | apply keeps_alu
    | apply keeps_for_each; intros ?
    | apply keeps_for_each_break; intros ?
    | apply keeps_modify; intros; rewrite ?f_set_pc, ?f_set_fl, ?f_set_stdout;
      reflexivity
    | match goal with |- keeps _ (if ?c then _ else _) => destruct c end
    | apply keeps_bind; [|intros ?] ].

Lemma keeps_handlers (IR : Z) (h : handler) (a b : Z) :
  branchtable !! IR = Some h -> IR <> HLT ->
  keeps f (if number_of_operands IR =? 2 then call h [a; b]
           else if number_of_operands IR =? 1 then call h [a]
           else call h []).
Proof using f_reg_set f_ram_write f_set_pc f_set_fl f_set_stdout.
  intros H Hne. each_opcode H;
    try (exfalso; apply Hne; reflexivity);
    match goal with
    | |- keeps _ (if number_of_operands ?op =? 2 then _ else _) =>
        let n := eval vm_compute in (number_of_operands op) in
        change (number_of_operands op) with n
    end; cbn [Z.eqb Pos.eqb call].
  - unfold handle_LDI. keeps_all.
  - unfold handle_PRN, print. keeps_all.
  - unfold handle_ALU. keeps_all.
  - unfold handle_ALU. keeps_all.
  - unfold handle_PUSH, print, sys_exit. keeps_all.
  - unfold handle_POP, print, sys_exit. keeps_all.
  - unfold handle_JUMP. keeps_all.
  - unfold handle_CALL. keeps_all.
  - unfold handle_RET. keeps_all.
  - unfold handle_ST. keeps_all.
  - unfold handle_ALU. keeps_all.
  - unfold handle_JEQ. keeps_all.
  - unfold handle_JNE. keeps_all.
Qed.

Lemma keeps_advance (IR : Z) :
  keeps f (if sets_pc IR =? 0
           then modify (fun s => set_pc (pc s + (number_of_operands IR + 1)) s)
           else ret tt).
Proof using f_set_pc. keeps_all. Qed.

Lemma keeps_interrupt_check : keeps f interrupt_check.
Proof using f_reg_set f_ram_write.
  unfold interrupt_check, save_state. keeps_all.
Qed.

End keeps_facts.

Lemma shape_reg_set (i v : Z) : keeps shape (reg_set i v).
Proof.
  intros s. unfold reg_set. rewrite bind_gets.
  destruct (PyList.setitem (reg s) i v) as [r'|] eqn:Hr; [|reflexivity].
  cbn. unfold shape; fields. now rewrite (PyListFacts.setitem_length _ _ _ _ Hr).
Qed.

Lemma shape_ram_write (v a : Z) : keeps shape (ram_write v a).
Proof.
  intros s. unfold ram_write. rewrite bind_gets.
  destruct (PyList.setitem (ram s) a v) as [m'|] eqn:Hm; [|reflexivity].
  cbn. unfold shape; fields. now rewrite (PyListFacts.setitem_length _ _ _ _ Hm).
Qed.

Lemma shape_dispatch (IR a b : Z) : keeps shape (dispatch IR a b).
Proof.
  unfold dispatch. apply keeps_bind; [|intros ?; now apply keeps_advance].
  destruct (branchtable !! IR) as [h|] eqn:Hh.
  - destruct (decide (IR = HLT)) as [->|Hne].
    + injection Hh as <-. intros s. reflexivity.
    + apply keeps_handlers; auto using shape_reg_set, shape_ram_write.
  - intros s. unfold bind, lift, py_str. destruct (fits_str IR); reflexivity.
Qed.

Lemma well_formed_shape (s s' : CPU) :
  shape s' = shape s -> well_formed s' <-> well_formed s.
Proof. unfold shape, well_formed. intros [= -> -> -> _]. reflexivity. Qed.

(** X12: whatever the opcode, the operands and the state, and whether the
    handler returns or raises, the dispatch block leaves the number of
    memory cells, the number of registers, [end_of_stack] and
    [last_saved_time] as they were, and so does the interrupt scan; the
    class invariant therefore holds after them exactly when it held
    before. *)
Theorem instructions_keep_shape (IR operand_a operand_b : Z) (s : CPU) :
  shape (snd (dispatch IR operand_a operand_b s)) = shape s
  /\ shape (snd (interrupt_check s)) = shape s
  /\ (well_formed (snd (dispatch IR operand_a operand_b s)) <-> well_formed s)
  /\ (well_formed (snd (interrupt_check s)) <-> well_formed s).
Proof.
  assert (H1 := shape_dispatch IR operand_a operand_b s).
  assert (H2 := keeps_interrupt_check shape shape_reg_set shape_ram_write s).
  split; [exact H1|]. split; [exact H2|].
  split; now apply well_formed_shape.
Qed.

Lemma halted_reg_set (i v : Z) : keeps halted (reg_set i v).
Proof.
  intros s. unfold reg_set. rewrite bind_gets.
  now destruct (PyList.setitem (reg s) i v).
Qed.

Lemma halted_ram_write (v a : Z) : keeps halted (ram_write v a).
Proof.
  intros s. unfold ram_write. rewrite bind_gets.
  now destruct (PyList.setitem (ram s) a v).
Qed.

(** X13: the dispatch block sets [halted] for HLT and for an opcode without
    a handler whose decimal text can be printed (at most 4300 digits), and
    for no other: an unknown opcode of more digits raises [ValueError]
    before the flag is set, and every other instruction, whether its
    handler returns or raises (the stack errors of PUSH and POP among them),
    leaves the flag as it was. *)
Theorem halted_set_only_by_HLT_or_unknown (IR operand_a operand_b : Z) (s : CPU) :
  halted (snd (dispatch IR operand_a operand_b s))
  = if bool_decide (IR = HLT
                    \/ (branchtable !! IR = None
                        /\ Z.abs IR < 10 ^ int_max_str_digits))
    then true else halted s.
Proof.
  case_bool_decide as Hcase.
  - destruct Hcase as [-> | [Hnone Hfits]].
    + reflexivity.
    + rewrite (dispatch_unknown IR operand_a operand_b s Hnone
                 (fits_str_true IR Hfits)).
      cbn [snd]. now destruct (sets_pc IR =? 0).
  - destruct (branchtable !! IR) as [h|] eqn:Hh.
    + assert (Hne : IR <> HLT) by tauto.
      unfold dispatch. rewrite Hh.
      apply (keeps_bind halted); [|intros ?; now apply keeps_advance].
      apply keeps_handlers; auto using halted_reg_set, halted_ram_write.
    + assert (Hlong : 10 ^ int_max_str_digits <= Z.abs IR).
      { destruct (Z.lt_ge_cases (Z.abs IR) (10 ^ int_max_str_digits)); [tauto|assumption]. }
      now rewrite (dispatch_unknown_too_long IR operand_a operand_b s Hh
                     (fits_str_false IR Hlong)).
Qed.

(** ** The interrupt scan, as a block (lines 144-163) *)

Lemma interrupt_check_cases (s : CPU) (r5 r6 : Z) :
  reg s !! 5%nat = Some r5 -> reg s !! 6%nat = Some r6 ->
  interrupt_check s
  = if existsb (Z.testbit (Z.land r5 r6)) (range 8)
    then (reg_set 5 0 ;;; reg_set 6 0 ;;; save_state) s
    else (Ret tt, s).
Proof.
  intros H5 H6. unfold interrupt_check.
  rewrite (bind_Ret _ _ _ _ _ (reg_get_ok s 5 r5 ltac:(lia) H5)).
  rewrite (bind_Ret _ _ _ _ _ (reg_get_ok s 6 r6 ltac:(lia) H6)).
  cbv zeta.
  transitivity
    (for_each_break (range 8)
       (fun i => if Z.land (Z.shiftr (Z.land r5 r6) i) 1 =? 1
                 then (reg_set 5 0 ;;; reg_set 6 0 ;;; save_state) ;;; ret true
                 else ret false) s).
  { generalize (range 8). intros l. generalize s.
    induction l as [|i l IH]; intros s0; [reflexivity|].
    cbn [for_each_break]. destruct (Z.land (Z.shiftr (Z.land r5 r6) i) 1 =? 1).
    - unfold bind. destruct (reg_set 5 0 s0) as [[[]|?] s1]; [|reflexivity].
      destruct (reg_set 6 0 s1) as [[[]|?] s2]; [|reflexivity].
      destruct (save_state s2) as [[[]|?] s3]; reflexivity.
    - rewrite !bind_ret. apply IH. }
  rewrite (for_each_break_first
             (fun i => Z.land (Z.shiftr (Z.land r5 r6) i) 1 =? 1)).
  replace (existsb (fun i => Z.land (Z.shiftr (Z.land r5 r6) i) 1 =? 1) (range 8))
    with (existsb (Z.testbit (Z.land r5 r6)) (range 8)); [reflexivity|].
  cbn [range seq fmap list_fmap existsb]. rewrite !bit_test by lia. reflexivity.
Qed.

(** X14: the interrupt scan, run on its own with the stack pointer between
    9 and 256.  When no bit 0..7 of [reg[5] & reg[6]] is set it changes
    nothing.  When one is set, however many, it performs one state save:
    registers 5 and 6 are cleared first, so the two cells saved for them
    hold 0, then [pc], [fl] and registers 0..6 are stored at SP-1 down to
    SP-9, and SP ends 9 lower; no check against [end_of_stack] is made. *)
Theorem interrupt_check_spec (s : CPU) (r0 r1 r2 r3 r4 r5 r6 sp : Z) :
  reg s = [r0; r1; r2; r3; r4; r5; r6; sp] ->
  length (ram s) = 256%nat -> 9 <= sp <= 256 ->
  interrupt_check s
  = if existsb (Z.testbit (Z.land r5 r6)) (range 8)
    then (Ret tt,
          set_ram (stack_writes [pc s; fl s; r0; r1; r2; r3; r4; 0; 0] sp (ram s))
            (set_reg [r0; r1; r2; r3; r4; 0; 0; sp - 9] s))
    else (Ret tt, s).
Proof.
  intros Hreg Hram Hsp.
  rewrite (interrupt_check_cases s r5 r6) by now rewrite Hreg.
  destruct (existsb _ _); [|reflexivity].
  now apply (clear_and_save s r0 r1 r2 r3 r4 r5 r6 sp).
Qed.

Lemma interrupt_check_spec_witness :
  interrupt_check (set_pc 5 (set_reg [1; 2; 3; 4; 5; 6; 3; 20] (init 0)))
  = (Ret tt,
     set_ram (stack_writes [5; 0; 1; 2; 3; 4; 5; 0; 0] 20 (replicate 256 0))
       (set_reg [1; 2; 3; 4; 5; 0; 0; 11]
          (set_pc 5 (set_reg [1; 2; 3; 4; 5; 6; 3; 20] (init 0)))))
  /\ interrupt_check (set_reg [1; 2; 3; 4; 5; 6; 1; 20] (init 0))
     = (Ret tt, set_reg [1; 2; 3; 4; 5; 6; 1; 20] (init 0)).
Proof.
  split.
  - apply (interrupt_check_spec (set_pc 5 (set_reg [1; 2; 3; 4; 5; 6; 3; 20] (init 0)))
             1 2 3 4 5 6 3 20); [reflexivity | reflexivity | lia].
  - apply (interrupt_check_spec (set_reg [1; 2; 3; 4; 5; 6; 1; 20] (init 0))
             1 2 3 4 5 6 1 20); [reflexivity | reflexivity | lia].
Defined.

(** ** The dispatch block on an opcode without a handler (lines 167-180) *)

(** X15: for an opcode that is none of the fourteen of the table.  When it
    has at most 4300 decimal digits, the dispatch block prints "Unknown
    instruction" with the opcode in decimal and sets [halted]; registers and
    memory are untouched, but the program counter is still advanced by the
    operand count plus one unless bit 4 of the opcode is set.  When it has
    more digits, building the message raises [ValueError]: nothing is
    printed, [halted] is not set and the machine is as it was. *)
Theorem dispatch_unknown_opcode (IR operand_a operand_b : Z) (s : CPU) :
  IR ∉ [LDI; PRN; HLT; ADD; MUL; PUSH; POP; JMP; CALL; RET; ST; CMP; JEQ; JNE] ->
  (Z.abs IR < 10 ^ int_max_str_digits ->
   exists s', dispatch IR operand_a operand_b s = (Ret tt, s')
     /\ halted s' = true
     /\ stdout s' = stdout s ++ ["Unknown instruction " +:+ pretty IR]
     /\ reg s' = reg s /\ ram s' = ram s /\ fl s' = fl s
     /\ pc s' = if sets_pc IR =? 0 then pc s + (number_of_operands IR + 1)
                else pc s)
  /\ (10 ^ int_max_str_digits <= Z.abs IR ->
      dispatch IR operand_a operand_b s = (Raise ValueError, s)).
Proof.
  intros Hno. apply branchtable_None in Hno. split.
  - intros Hfits.
    rewrite (dispatch_unknown IR operand_a operand_b s Hno (fits_str_true IR Hfits)).
    eexists. split; [reflexivity|].
    destruct (sets_pc IR =? 0); repeat split.
  - intros Hlong.
    apply (dispatch_unknown_too_long IR operand_a operand_b s Hno
             (fits_str_false IR Hlong)).
Qed.

Lemma dispatch_unknown_opcode_witness :
  (exists s', dispatch 192 0 0 (init 0) = (Ret tt, s')
     /\ halted s' = true
     /\ stdout s' = ["Unknown instruction 192"]
     /\ pc s' = 4)
  /\ dispatch (10 ^ 4300) 0 0 (init 0) = (Raise ValueError, init 0).
Proof.
  assert (H192 : 192 ∉ [LDI; PRN; HLT; ADD; MUL; PUSH; POP; JMP; CALL; RET; ST;
                         CMP; JEQ; JNE]).
  { rewrite <- (bool_decide_spec (_ ∈ _)). vm_compute. tauto. }
  assert (Hbig : 10 ^ 4300 ∉ [LDI; PRN; HLT; ADD; MUL; PUSH; POP; JMP; CALL; RET;
                               ST; CMP; JEQ; JNE]).
  { rewrite <- (bool_decide_spec (_ ∈ _)). vm_compute. tauto. }
  split.
  - destruct (proj1 (dispatch_unknown_opcode 192 0 0 (init 0) H192))
      as (s' & H & Hh & Ho & _ & _ & _ & Hp).
    + vm_compute. reflexivity.
    + exists s'. repeat split; assumption.
  - apply (proj2 (dispatch_unknown_opcode (10 ^ 4300) 0 0 (init 0) Hbig)).
    vm_compute. discriminate.
Defined.

(** ** The loader (lines 48-67) *)

Section loader_facts.
Variable int2 : string -> option Z.

Lemma ram_write_end (s : CPU) (v : Z) :
  ram_write v (Z.of_nat (length (ram s))) s = (Raise IndexError, s).
Proof.
  unfold ram_write. rewrite bind_gets. unfold PyList.setitem.
  now rewrite PyListFacts.index_outside by lia.
Qed.

Lemma load_lines_spec (program : list string) :
  forall (pre post : list Z) (s : CPU),
    ram s = pre ++ post ->
    load_lines int2 program (Z.of_nat (length pre)) s
    = (Ret (Z.of_nat (length pre
                      + length (take (length post) (parsed int2 program)))),
       set_ram (pre ++ take (length post) (parsed int2 program)
                    ++ drop (length (parsed int2 program)) post) s).
Proof.
  induction program as [|line rest IH]; intros pre post s Hram.
  - unfold parsed. cbn [load_lines omap list_omap]. rewrite take_nil.
    cbn [length drop app]. rewrite Nat.add_0_r, drop_0, <- Hram. now destruct s.
  - cbn [load_lines]. unfold parsed. cbn [omap list_omap]. fold (parsed int2 rest).
    destruct (int2 (before_hash line)) as [v|].
    + destruct post as [|x post'].
      * assert (Hend : ram_write v (Z.of_nat (length pre)) s = (Raise IndexError, s)).
        { replace (length pre) with (length (ram s));
            [apply ram_write_end | now rewrite Hram, app_nil_r]. }
        unfold try_except, bind at 1. unfold bind at 1. rewrite Hend.
        cbn [ret]. rewrite (IH pre [] s Hram).
        cbn [length take]. now rewrite !drop_nil.
      * assert (Hw : ram_write v (Z.of_nat (length pre)) s
                     = (Ret tt, set_ram (pre ++ v :: post') s)).
        { rewrite ram_write_ok by (rewrite Hram, length_app; cbn [length]; lia).
          rewrite Nat2Z.id, Hram. f_equal. f_equal.
          replace (length pre) with (length pre + 0)%nat at 1 by lia.
          now rewrite insert_app_r. }
        unfold try_except, bind at 1. unfold bind at 1. rewrite Hw.
        cbn [ret].
        replace (Z.of_nat (length pre) + 1) with (Z.of_nat (length (pre ++ [v])))
          by (rewrite length_app; cbn [length]; lia).
        rewrite (IH (pre ++ [v]) post' (set_ram (pre ++ v :: post') s))
          by (fields; now rewrite <- app_assoc).
        cbn [length take drop]. rewrite length_app, <- !app_assoc. cbn [length app].
        f_equal. f_equal. f_equal. lia.
    + unfold try_except, bind at 1. cbn [raise ret].
      apply (IH pre post s Hram).
Qed.

Lemma load_existing_file (program : list string) (s : CPU) :
  load int2 (Opened program None) s
  = (Ret tt,
     set_end_of_stack
       (Z.of_nat (length (take (length (ram s)) (parsed int2 program))))
       (set_ram (take (length (ram s)) (parsed int2 program)
                 ++ drop (length (parsed int2 program)) (ram s)) s)).
Proof.
  unfold load.
  rewrite (bind_Ret _ _ _ _ _ (load_lines_spec program [] (ram s) s eq_refl)).
  reflexivity.
Qed.

Lemma load_read_error (program : list string) (e : exn) (s : CPU) :
  load int2 (Opened program (Some e)) s
  = (Raise e,
     set_ram (take (length (ram s)) (parsed int2 program)
              ++ drop (length (parsed int2 program)) (ram s)) s).
Proof.
  unfold load.
  rewrite (bind_Ret _ _ _ _ _ (load_lines_spec program [] (ram s) s eq_refl)).
  reflexivity.
Qed.

(** X16: [load] of a file that opens and is read to its end never fails.
    The values of the lines that parse are stored from address 0 on in the
    order of the file, the lines that do not parse taking no address; cells
    past the last value keep their contents; once memory is full the
    remaining values are dropped without a word.  [end_of_stack] ends as the
    number of values stored, at most the size of memory; registers, [pc],
    flags and output are untouched.  When the reading stops on an error
    after some lines (undecodable bytes, say), the values of those lines are
    in memory all the same, [end_of_stack] is not assigned and the error
    leaves [load] uncaught; an error of the opening other than
    [FileNotFoundError] (a directory, a file that may not be read) leaves
    [load] uncaught with the machine as it was. *)
Theorem load_spec (program : list string) (s : CPU) :
  (exists s',
     load int2 (Opened program None) s = (Ret tt, s')
     /\ ram s' = take (length (ram s)) (parsed int2 program)
                 ++ drop (length (parsed int2 program)) (ram s)
     /\ end_of_stack s'
        = Z.of_nat (length (parsed int2 program) `min` length (ram s))
     /\ length (ram s') = length (ram s)
     /\ reg s' = reg s /\ pc s' = pc s /\ fl s' = fl s
     /\ halted s' = halted s /\ stdout s' = stdout s)
  /\ (forall e,
        load int2 (Opened program (Some e)) s
        = (Raise e,
           set_ram (take (length (ram s)) (parsed int2 program)
                    ++ drop (length (parsed int2 program)) (ram s)) s))
  /\ (forall e, load int2 (OpenFails e) s = (Raise e, s)).
Proof.
  split; [|split; [intros e; apply load_read_error | reflexivity]].
  eexists. split; [apply load_existing_file|].
  cbn [ram reg pc fl halted end_of_stack stdout set_end_of_stack set_ram].
  split; [reflexivity|]. split; [rewrite length_take; f_equal; lia|].
  split; [|repeat split].
  rewrite length_app, length_take, length_drop. lia.
Qed.

End loader_facts.

(** ** The entry point (ls8.py) *)

Section main_facts.
Variable int2 : string -> option Z.
Variable open : string -> opened.
Variable clock : nat -> Z.

(** X17: without a file name on the command line the process prints
    "Missing program filename..." and exits with status 1; with the name of
    a file that does not exist it prints "File Not Found..." and exits with
    status 1.  In both cases the machine is the freshly built one. *)
Theorem main_exits_without_program (argv : list string) (fuel : nat) :
  ((length argv < 2)%nat ->
   main int2 argv open clock fuel
   = (Raise (SystemExit 1),
      set_stdout ["Missing program filename..."] (init (clock O))))
  /\ (forall name, argv !! 1%nat = Some name -> open name = NotFound ->
        main int2 argv open clock fuel
        = (Raise (SystemExit 1),
           set_stdout ["File Not Found..."] (init (clock O)))).
Proof.
  split.
  - intros Hlen. unfold main.
    destruct (Nat.ltb_spec (length argv) 2); [reflexivity | lia].
  - intros name Hname Hopen. unfold main.
    pose proof (lookup_lt_Some _ _ _ Hname) as Hlen.
    destruct (Nat.ltb_spec (length argv) 2); [lia|].
    rewrite bind_ret, Hname. cbn [lift_index]. rewrite bind_ret, Hopen.
    reflexivity.
Qed.

Lemma main_loads (argv : list string) (name : string) (fuel : nat) :
  argv !! 1%nat = Some name ->
  main int2 argv open clock fuel
  = (load int2 (open name) ;;; run fuel (fun k => clock (S k))) (init (clock O)).
Proof.
  intros Hname. unfold main.
  pose proof (lookup_lt_Some _ _ _ Hname) as Hargs.
  destruct (Nat.ltb_spec (length argv) 2); [lia|].
  rewrite bind_ret, Hname. cbn [lift_index]. now rewrite bind_ret.
Qed.

(** X18: with the name of a file that opens and is read to its end, whatever
    its lines, the process loads it and then ends in the first cycle of
    [run] with an uncaught [TypeError]: no instruction is executed, nothing
    is printed, and the machine is left exactly as the loader left it.  When
    the reading of the file stops on an error instead, that error ends the
    process inside [load] and [run] is not reached. *)
Theorem main_never_executes_an_instruction
    (argv : list string) (name : string) (program : list string) (fuel : nat) :
  argv !! 1%nat = Some name ->
  (open name = Opened program None ->
   exists s',
     load int2 (Opened program None) (init (clock O)) = (Ret tt, s')
     /\ main int2 argv open clock (S fuel) = (Raise TypeError, s')
     /\ stdout s' = [] /\ halted s' = false /\ pc s' = 0
     /\ reg s' = reg (init (clock O)))
  /\ (forall e, open name = Opened program (Some e) ->
        main int2 argv open clock (S fuel)
        = (Raise e, snd (load int2 (Opened program (Some e)) (init (clock O))))
        /\ halted (snd (main int2 argv open clock (S fuel))) = false
        /\ stdout (snd (main int2 argv open clock (S fuel))) = []).
Proof.
  intros Hname. rewrite (main_loads argv name (S fuel) Hname). split.
  - intros Hopen. rewrite Hopen.
    pose proof (load_existing_file int2 program (init (clock O))) as Hload.
    set (s' := set_end_of_stack _ _) in Hload.
    assert (Hlen : length (ram s') = 256%nat).
    { subst s'. cbn [ram set_end_of_stack set_ram].
      rewrite length_app, length_take, length_drop.
      change (length (ram (init (clock O)))) with 256%nat. lia. }
    assert (Hpc : pc s' = 0) by reflexivity.
    exists s'. split; [exact Hload|]. split; [|repeat split].
    rewrite (bind_Ret _ _ _ _ _ Hload).
    assert (Hcell : forall a, 0 <= a < 256 ->
                      is_Some (PyList.getitem (ram s') (pc s' + a))).
    { intros a Ha. rewrite Hpc, Z.add_0_l.
      rewrite PyListFacts.getitem_lookup by (rewrite Hlen; lia).
      apply lookup_lt_is_Some_2. rewrite Hlen. lia. }
    destruct (Hcell 0 ltac:(lia)) as [IR HIR]. rewrite Z.add_0_r in HIR.
    destruct (Hcell 1 ltac:(lia)) as [a Ha].
    destruct (Hcell 2 ltac:(lia)) as [b Hb].
    apply (run_raises_TypeError fuel _ s' IR a b); first [assumption | reflexivity].
  - intros e Hopen. rewrite Hopen.
    rewrite (bind_Raise _ _ _ _ _ (load_read_error int2 program e (init (clock O)))).
    rewrite (load_read_error int2 program e (init (clock O))).
    repeat split.
Qed.

End main_facts.

Lemma main_exits_without_program_witness :
  main (fun _ => None) ["ls8.py"] (fun _ => NotFound) (fun _ => 0) 5
  = (Raise (SystemExit 1), set_stdout ["Missing program filename..."] (init 0))
  /\ main (fun _ => None) ["ls8.py"; "mult.ls8"] (fun _ => NotFound) (fun _ => 0) 5
     = (Raise (SystemExit 1), set_stdout ["File Not Found..."] (init 0)).
Proof.
  split.
  - apply (proj1 (main_exits_without_program (fun _ => None) (fun _ => NotFound)
                    (fun _ => 0) ["ls8.py"] 5)). cbn. lia.
  - apply (proj2 (main_exits_without_program (fun _ => None) (fun _ => NotFound)
                    (fun _ => 0) ["ls8.py"; "mult.ls8"] 5) "mult.ls8"); reflexivity.
Defined.

(** A file of one line, the byte of HLT: the machine stops on [TypeError]
    with HLT loaded at address 0 and [halted] still false. *)
Lemma main_never_executes_an_instruction_witness :
  exists s',
    main (fun _ => Some HLT) ["ls8.py"; "halt.ls8"]
      (fun _ => Opened ["00000001"] None) (fun _ => 0) 1
    = (Raise TypeError, s')
    /\ ram s' !! 0%nat = Some HLT /\ end_of_stack s' = 1
    /\ stdout s' = [] /\ halted s' = false.
Proof.
  destruct (proj1 (main_never_executes_an_instruction
                     (fun _ => Some HLT) (fun _ => Opened ["00000001"] None)
                     (fun _ => 0) ["ls8.py"; "halt.ls8"] "halt.ls8" ["00000001"] 0
                     eq_refl) eq_refl)
    as (s' & Hload & Hmain & Hout & Hh & _).
  exists s'. split; [exact Hmain|].
  injection Hload as <-. repeat split.
Defined.

(** ** The dispatch block on an opcode with a handler (lines 170-180) *)

(** X19: for an opcode with a handler the dispatch block calls the handler
    with as many operands as it takes.  When the handler raises, the
    exception goes through and the program counter is not advanced; when it
    returns, the program counter is advanced by the operand count plus one,
    except for JMP, CALL, RET, JEQ and JNE, whose handlers have the last
    word on [pc]. *)
Theorem dispatch_known_opcode (IR : Z) (h : handler) (a b : Z) (s : CPU) :
  branchtable !! IR = Some h ->
  dispatch IR a b s
  = match apply_handler h a b s with
    | (Ret _, s') =>
        (Ret tt,
         if bool_decide (IR ∈ [JMP; CALL; RET; JEQ; JNE]) then s'
         else set_pc (pc s' + (arity h + 1)) s')
    | (Raise e, s') => (Raise e, s')
    end.
Proof.
  intros H. pose proof H as Hl. each_opcode H;
    unfold dispatch; rewrite Hl;
    match goal with
    | |- context [number_of_operands ?op] =>
        let n := eval vm_compute in (number_of_operands op) in
        change (number_of_operands op) with n;
        let p := eval vm_compute in (sets_pc op) in
        change (sets_pc op) with p;
        let j := eval vm_compute in (bool_decide (op ∈ [JMP; CALL; RET; JEQ; JNE])) in
        change (bool_decide (op ∈ [JMP; CALL; RET; JEQ; JNE])) with j
    end;
    cbn [Z.eqb Pos.eqb call apply_handler arity Z.add Pos.add]; unfold bind;
    match goal with
    | |- context [match ?m s with _ => _ end] => destruct (m s) as [[[]|e] s']
    end; reflexivity.
Qed.

Lemma dispatch_known_opcode_witness :
  dispatch LDI 2 77 (init 0)
  = (Ret tt, set_pc 3 (set_reg [0; 0; 77; 0; 0; 0; 0; 244] (init 0)))
  /\ dispatch LDI 8 77 (init 0) = (Raise IndexError, init 0)
  /\ dispatch HLT 0 0 (init 0) = (Ret tt, set_pc 1 (set_halted true (init 0))).
Proof.
  split; [|split].
  - rewrite (dispatch_known_opcode LDI (Handler2 handle_LDI) 2 77 (init 0) eq_refl).
    reflexivity.
  - rewrite (dispatch_known_opcode LDI (Handler2 handle_LDI) 8 77 (init 0) eq_refl).
    reflexivity.
  - rewrite (dispatch_known_opcode HLT (Handler0 handle_HLT) 0 0 (init 0) eq_refl).
    reflexivity.
Defined.

(** ** Compare and branch (lines 77-83, 231-241) *)

(** X20: CMP of registers [a] and [b] followed by JEQ through register [r]
    jumps to the value of [r] exactly when the two registers hold equal
    integers and otherwise moves the program counter on by 2; followed by
    JNE it does the reverse.  The flags are left at [E], [L] or [G] by the
    comparison. *)
Theorem alu_CMP_then_branch (s : CPU) (a b r x y t : Z) :
  0 <= a -> 0 <= b -> 0 <= r ->
  reg s !! Z.to_nat a = Some x -> reg s !! Z.to_nat b = Some y ->
  reg s !! Z.to_nat r = Some t ->
  let f := if x =? y then E else if x <? y then L else G in
  (alu CMP a b ;;; handle_JEQ r) s
  = (Ret tt, set_pc (if x =? y then t else pc s + 2) (set_fl f s))
  /\ (alu CMP a b ;;; handle_JNE r) s
     = (Ret tt, set_pc (if x =? y then pc s + 2 else t) (set_fl f s)).
Proof.
  intros Ha Hb Hr Hx Hy Ht f.
  rewrite !(bind_Ret _ _ _ _ _ (alu_CMP_eq s a b x y Ha Hb Hx Hy)).
  fold f. unfold handle_JEQ, handle_JNE. rewrite !bind_gets. fields.
  assert (Hf : (f =? E) = (x =? y)).
  { subst f. unfold E, L, G. destruct (x =? y), (x <? y); reflexivity. }
  rewrite Hf.
  assert (Hget : reg_get r (set_fl f s) = (Ret t, set_fl f s))
    by (apply reg_get_ok; assumption).
  destruct (x =? y); cbn [negb]; rewrite ?(bind_Ret _ _ _ _ _ Hget); split; reflexivity.
Qed.

Lemma alu_CMP_then_branch_witness :
  let s := set_pc 10 (set_reg [5; 5; 9; 40; 0; 0; 0; 244] (init 0)) in
  (alu CMP 0 1 ;;; handle_JEQ 3) s = (Ret tt, set_pc 40 (set_fl E s))
  /\ (alu CMP 0 2 ;;; handle_JEQ 3) s = (Ret tt, set_pc 12 (set_fl L s))
  /\ (alu CMP 2 0 ;;; handle_JNE 3) s = (Ret tt, set_pc 40 (set_fl G s)).
Proof.
  intros s. split; [|split].
  - apply (alu_CMP_then_branch s 0 1 3 5 5 40); first [reflexivity | lia].
  - apply (alu_CMP_then_branch s 0 2 3 5 9 40); first [reflexivity | lia].
  - apply (alu_CMP_then_branch s 2 0 3 9 5 40); first [reflexivity | lia].
Defined.
